(** * si_prefix: SI-prefix normalisation, formatting and parsing

    A shallow embedding of [si_prefix/__init__.py].

    Modelling conventions.
    - A finite Python [float] is modelled by the rational it denotes ([Q]).
      The rounding of binary64 operations, infinities and NaN are outside
      the model: a product or a logarithm is the exact one, where the
      code gets the exact one rounded.  Numeric statements are therefore
      made at inputs where the two agree, or about what does not depend
      on the rounding (which exception is raised, integer exponents,
      the text that is produced and matched).
    - The conversion of an [int] to a [float], which a product of a
      [float] and an [int] performs, raises [OverflowError] beyond the
      range of binary64 ([float_of_int]).
    - [int(log10(value))] is modelled by the exact base-10 logarithm
      truncated toward zero ([int_log10]).
    - A Python [str] is modelled by [string]; a character [ascii] stands for
      the code point of the same number, so the model covers strings over
      U+0000..U+00FF.  Every prefix symbol, including the micro sign U+00B5,
      lies in that range.
    - Exceptions are modelled by the [result] monad.
    - Of Python's library, [str.format] is modelled for keyword fields
      with the format specifications the default templates use, [float]
      for decimal literals, and [re] for the constructs of the two
      patterns of [si_parse]; what is left out of [str.format] is a
      parameter of the model. *)

From Stdlib Require Import ZArith QArith Qabs String Ascii List Lia Bool.
From Stdlib Require Import DecimalString.
From Stdlib Require DecimalZ DecimalPos.
Import ListNotations.

Open Scope string_scope.
Open Scope Z_scope.

(** ** Exceptions *)

Inductive exn : Set :=
| ValueError
| AssertionError
| AttributeError
| KeyError
| IndexError
| TypeError
| OverflowError.

Inductive result (A : Type) : Type :=
| Return (a : A)
| Raise (e : exn).

Arguments Return {A} a.
Arguments Raise {A} e.

Definition bind {A B : Type} (m : result A) (f : A -> result B) : result B :=
  match m with
  | Return a => f a
  | Raise e => Raise e
  end.

Notation "x <- m ;; k" := (bind m (fun x => k))
  (at level 61, m at next level, right associativity).
Notation "' p <- m ;; k" := (bind m (fun x => let 'p := x in k))
  (at level 61, p pattern, m at next level, right associativity).

(** [try: body  except ValueError: handler] *)
Definition try_except_ValueError {A : Type} (body handler : result A) : result A :=
  match body with
  | Raise ValueError => handler
  | r => r
  end.

(** [assert cond] *)
Definition assert (cond : bool) : result unit :=
  if cond then Return tt else Raise AssertionError.

(** ** Characters and strings *)

Definition code (c : ascii) : Z := Z.of_nat (nat_of_ascii c).

(** U+00B5 MICRO SIGN *)
Definition micro : ascii := "181"%char.

(** [str.isspace] on one character, which is also the class [\s] of a
    [str] pattern: U+0009..U+000D, U+001C..U+0020, U+0085, U+00A0. *)
Definition is_space (c : ascii) : bool :=
  let n := code c in
  ((9 <=? n) && (n <=? 13)) || ((28 <=? n) && (n <=? 32))
  || (n =? 133) || (n =? 160).

(** The class [\d]: below U+0100 the decimal digits are [0-9]. *)
Definition is_digit (c : ascii) : bool :=
  let n := code c in (48 <=? n) && (n <=? 57).

Definition digit_value (c : ascii) : Z := code c - 48.

Fixpoint mem_char (c : ascii) (s : string) : bool :=
  match s with
  | EmptyString => false
  | String d s' => Ascii.eqb c d || mem_char c s'
  end.

Fixpoint forallb_string (p : ascii -> bool) (s : string) : bool :=
  match s with
  | EmptyString => true
  | String c s' => p c && forallb_string p s'
  end.

Fixpoint existsb_string (p : ascii -> bool) (s : string) : bool :=
  match s with
  | EmptyString => false
  | String c s' => p c || existsb_string p s'
  end.

(** [len(s)] *)
Definition len (s : string) : Z := Z.of_nat (String.length s).

(** [s[i]], with Python's negative indices *)
Definition getitem (s : string) (i : Z) : result string :=
  let j := if i <? 0 then i + len s else i in
  if (j <? 0) || (len s <=? j) then Raise IndexError
  else match String.get (Z.to_nat j) s with
       | Some c => Return (String c "")
       | None => Raise IndexError
       end.

(** [s.index(sub)] *)
Definition str_index (s sub : string) : result Z :=
  match String.index 0 sub s with
  | Some i => Return (Z.of_nat i)
  | None => Raise ValueError
  end.

(** Removal of the leading and of the trailing characters of a class. *)
Fixpoint lstrip_by (p : ascii -> bool) (s : string) : string :=
  match s with
  | EmptyString => EmptyString
  | String c s' => if p c then lstrip_by p s' else s
  end.

Fixpoint rstrip_by (p : ascii -> bool) (s : string) : string :=
  match s with
  | EmptyString => EmptyString
  | String c s' =>
      match rstrip_by p s' with
      | EmptyString => if p c then EmptyString else String c EmptyString
      | t => String c t
      end
  end.

(** [s.rstrip()] *)
Definition rstrip (s : string) : string := rstrip_by is_space s.

(** [str(n)] for an [int] *)
Definition str_of_int (n : Z) : string := NilZero.string_of_int (Z.to_int n).

(** ** Numbers *)

Definition Qlt_bool (x y : Q) : bool := negb (Qle_bool y x).

(** [floor(log10 n)] for an integer [n >= 1]: the number of times [n] can
    be divided by ten before it drops below ten. *)
Fixpoint floor_log10_loop (fuel : nat) (n : Z) : Z :=
  match fuel with
  | O => 0
  | S fuel' => if n <? 10 then 0 else 1 + floor_log10_loop fuel' (n / 10)
  end.

Definition floor_log10 (n : Z) : Z :=
  floor_log10_loop (S (Z.to_nat (Z.log2 n))) n.

(** [int(log10(value))]: [math.log10] raises [ValueError] (math domain
    error) outside the positive numbers; [int] truncates toward zero. *)
Definition int_log10 (value : Q) : result Z :=
  if Qle_bool value 0 then Raise ValueError
  else
    let n := Qnum value in
    let d := Zpos (Qden value) in
    Return (if d <=? n then floor_log10 (n / d) else - floor_log10 (d / n)).

(** [float(n)] for an [int], as a product [x * n] with a float [x]
    computes it: an integer that rounds (to nearest, ties to even) beyond
    the largest binary64 number, [2 ** 1024 - 2 ** 971], is too large to
    convert. *)
Definition float_of_int (n : Z) : result Q :=
  if 2 ^ 1024 - 2 ^ 970 <=? Z.abs n then Raise OverflowError
  else Return (inject_Z n).

(** [10 ** n] as a factor of a product with a float: a [float] for a
    negative [n], and an [int], converted by the product, otherwise. *)
Definition pow_10 (n : Z) : result Q :=
  if n <? 0 then Return (10 ^ n)%Q else float_of_int (10 ^ n).

(** ** The prefix table *)

Definition SI_PREFIX_UNITS : string :=
  "yzafpn" ++ String micro "m kMGTPEZY".

(** ** [split] *)

Definition split (value : Q) : result (Q * Z) :=
  let negative := Qlt_bool value 0 in
  let value := if negative then (- value)%Q else value in
  if negb negative && Qeq_bool value 0 then Return (0%Q, 0)
  else
    expof10 <- int_log10 value ;;
    let expof10 :=
      if 0 <? expof10 then (expof10 / 3) * 3
      else if expof10 <? 0 then (- expof10 + 3) / 3 * (-3)
      else expof10 in
    factor <- pow_10 (- expof10) ;;
    let value := (value * factor)%Q in
    let '(value, expof10) :=
      if Qle_bool 1000 value then ((value / 1000)%Q, expof10 + 3)
      else (value, expof10) in
    Return (if negative then (- value)%Q else value, expof10).

(** ** [prefix] *)

Definition prefix (expof10 : Z) : result string :=
  let prefix_levels := (len SI_PREFIX_UNITS - 1) / 2 in
  let si_level := expof10 / 3 in
  if prefix_levels <? Z.abs si_level then Raise ValueError
  else getitem SI_PREFIX_UNITS (si_level + prefix_levels).

(** ** [si_prefix_expof10], [si_prefix_scale] *)

Definition si_prefix_expof10 (si_unit : string) : result Z :=
  let prefix_levels := (len SI_PREFIX_UNITS - 1) / 2 in
  i <- str_index SI_PREFIX_UNITS si_unit ;;
  Return (3 * (i - prefix_levels)).

Definition si_prefix_scale (si_unit : string) : result Q :=
  e <- si_prefix_expof10 si_unit ;;
  Return (10 ^ e)%Q.

(** ** [str.format] *)

(** The objects handed to [str.format] by [si_format]. *)
Inductive pyval : Type :=
| PyFloat (q : Q)
| PyStr (s : string).

Fixpoint lookup (name : string) (kwargs : list (string * pyval)) : option pyval :=
  match kwargs with
  | [] => None
  | (k, v) :: rest => if String.eqb name k then Some v else lookup name rest
  end.

(** Rounding of a non-negative rational to the nearest integer, ties to
    even. *)
Definition round_half_even (q : Q) : Z :=
  let n := Qnum q in
  let d := Zpos (Qden q) in
  let fl := n / d in
  match 2 * (n mod d) ?= d with
  | Lt => fl
  | Gt => fl + 1
  | Eq => if Z.even fl then fl else fl + 1
  end.

Fixpoint zeros (n : nat) : string :=
  match n with
  | O => ""
  | S n' => String "0" (zeros n')
  end.

(** The presentation type [f] with precision [prec]: [format(q, '.<prec>f')] *)
Definition format_fixed (prec : nat) (q : Q) : string :=
  let scaled := round_half_even (Qabs q * 10 ^ Z.of_nat prec)%Q in
  let digits := str_of_int scaled in
  let digits := zeros (S prec - String.length digits) ++ digits in
  let split_at := (String.length digits - prec)%nat in
  (if Qlt_bool q 0 then "-" else "")
  ++ substring 0 split_at digits
  ++ (match prec with
      | O => ""
      | S _ => "." ++ substring split_at prec digits
      end).

Fixpoint nat_of_digits (acc : nat) (s : string) : nat :=
  match s with
  | EmptyString => acc
  | String c s' => nat_of_digits (10 * acc + Z.to_nat (digit_value c)) s'
  end.

(** Recognises the format specification [.<digits>f], with at most
    three digits, and returns its precision. *)
Definition fixed_spec (spec : string) : option nat :=
  match spec with
  | String "." rest =>
      let n := String.length rest in
      let digits := substring 0 (n - 1) rest in
      if (1 <? n)%nat && (n <=? 4)%nat && forallb_string is_digit digits
         && String.eqb (substring (n - 1) 1 rest) "f"
      then Some (nat_of_digits 0 digits)
      else None
  | _ => None
  end.

(** Scanner states of the template walk: literal text, the name of a
    replacement field, its format specification. *)
Inductive scan : Type :=
| Literal
| FieldName (name : string)
| FieldSpec (name spec : string).

Definition snoc (s : string) (c : ascii) : string := s ++ String c "".

Section Format.

(** Python's rendering of the part of the format mini-language that is
    not modelled: a replacement field with a conversion, an attribute,
    an index or a brace in its name, a positional field, a nested field
    (the argument is the template from that field on), and a format
    specification other than
    the empty one for a [str] and [.<digits>f], of at most three digits,
    for a [float]. *)
Variable render_unmodelled : list (string * pyval) -> string -> result string.
Variable format_unmodelled : pyval -> string -> result string.

(** [format(v, spec)] *)
Definition format_value (v : pyval) (spec : string) : result string :=
  match v with
  | PyStr s => if String.eqb spec "" then Return s else format_unmodelled v spec
  | PyFloat q =>
      match fixed_spec spec with
      | Some prec => Return (format_fixed prec q)
      | None => format_unmodelled v spec
      end
  end.

(** A replacement field [{name:spec}] with a keyword name. *)
Definition render_field (kwargs : list (string * pyval)) (name spec : string)
  : result string :=
  match lookup name kwargs with
  | Some v => format_value v spec
  | None => Raise KeyError
  end.

(** The walk over the template.  A single brace, and the end of the
    template inside a replacement field, raise [ValueError]. *)
Fixpoint render (kwargs : list (string * pyval)) (st : scan) (s : string)
  : result string :=
  match st, s with
  | Literal, EmptyString => Return ""
  | Literal, String "{" (String "{" s') =>
      out <- render kwargs Literal s' ;; Return (String "{" out)
  | Literal, String "{" EmptyString => Raise ValueError
  | Literal, String "{" s' => render kwargs (FieldName "") s'
  | Literal, String "}" (String "}" s') =>
      out <- render kwargs Literal s' ;; Return (String "}" out)
  | Literal, String "}" _ => Raise ValueError
  | Literal, String c s' =>
      out <- render kwargs Literal s' ;; Return (String c out)
  | FieldName name, EmptyString => Raise ValueError
  | FieldName name, String "}" s' =>
      if String.eqb name "" || forallb_string is_digit name
      then render_unmodelled kwargs ("{" ++ name ++ s)
      else
        txt <- render_field kwargs name "" ;;
        out <- render kwargs Literal s' ;;
        Return (txt ++ out)
  | FieldName name, String ":" s' =>
      if String.eqb name "" || forallb_string is_digit name
      then render_unmodelled kwargs ("{" ++ name ++ s)
      else render kwargs (FieldSpec name "") s'
  | FieldName name, String c s' =>
      if mem_char c "![.{"
      then render_unmodelled kwargs ("{" ++ name ++ s)
      else render kwargs (FieldName (snoc name c)) s'
  | FieldSpec name spec, EmptyString => Raise ValueError
  | FieldSpec name spec, String "}" s' =>
      txt <- render_field kwargs name spec ;;
      out <- render kwargs Literal s' ;;
      Return (txt ++ out)
  | FieldSpec name spec, String "{" s' =>
      render_unmodelled kwargs ("{" ++ name ++ ":" ++ spec ++ s)
  | FieldSpec name spec, String c s' =>
      render kwargs (FieldSpec name (snoc spec c)) s'
  end.

(** [template.format] applied to the keyword arguments [kwargs] *)
Definition str_format (template : string) (kwargs : list (string * pyval))
  : result string :=
  render kwargs Literal template.

(** ** [si_format] *)

Definition si_format (value : Q) (format_str exp_format_str : string)
  : result string :=
  '(value, expof10) <- split value ;;
  try_except_ValueError
    (p <- prefix expof10 ;;
     str_format format_str [("value", PyFloat value); ("prefix", PyStr (rstrip p))])
    (let sign := if 0 <? expof10 then "+" else "" in
     str_format exp_format_str
       [("value", PyFloat value); ("expof10", PyStr (sign ++ str_of_int expof10))]).

End Format.

(** The default templates of [si_format]. *)
Definition default_format_str : string := "{value:.2f} {prefix}".
Definition default_exp_format_str : string := "{value:.2f}e{expof10}".

(** ** [float(s)] for a string *)

(** The whitespace [float] strips: the ASCII whitespace, and the
    whitespace above U+007F (mapped to a space before the conversion). *)
Definition is_float_space (c : ascii) : bool :=
  let n := code c in
  ((9 <=? n) && (n <=? 13)) || (n =? 32) || (n =? 133) || (n =? 160).

(** An underscore is accepted between two digits and nowhere else;
    [prev] is the character before [s]. *)
Fixpoint underscores_ok (prev : ascii) (s : string) : bool :=
  match s with
  | EmptyString => negb (Ascii.eqb prev "_")
  | String c s' =>
      (if Ascii.eqb c "_" then is_digit prev
       else negb (Ascii.eqb prev "_") || is_digit c)
      && underscores_ok c s'
  end.

Fixpoint remove_underscores (s : string) : string :=
  match s with
  | EmptyString => EmptyString
  | String c s' =>
      if Ascii.eqb c "_" then remove_underscores s'
      else String c (remove_underscores s')
  end.

(** The longest prefix of digits, and what follows it. *)
Fixpoint take_digits (s : string) : string * string :=
  match s with
  | EmptyString => (EmptyString, EmptyString)
  | String c s' =>
      if is_digit c
      then let (ds, rest) := take_digits s' in (String c ds, rest)
      else (EmptyString, s)
  end.

Fixpoint Z_of_digits (acc : Z) (s : string) : Z :=
  match s with
  | EmptyString => acc
  | String c s' => Z_of_digits (10 * acc + digit_value c) s'
  end.

(** An optional sign: [true] for a minus. *)
Definition take_sign (s : string) : bool * string :=
  match s with
  | String "-" s' => (true, s')
  | String "+" s' => (false, s')
  | _ => (false, s)
  end.

(** The exponent part: nothing, or [e] or [E], an optional sign and at
    least one digit, up to the end of the string. *)
Definition parse_exponent (s : string) : option Z :=
  match s with
  | EmptyString => Some 0
  | String c s' =>
      if mem_char c "eE" then
        let (neg, s1) := take_sign s' in
        let (ds, rest) := take_digits s1 in
        match ds, rest with
        | String _ _, EmptyString =>
            Some (if neg then - Z_of_digits 0 ds else Z_of_digits 0 ds)
        | _, _ => None
        end
      else None
  end.

(** A decimal literal: optional sign, digits with an optional point (a
    digit on at least one side of it), optional exponent. *)
Definition parse_decimal (s : string) : option Q :=
  let (neg, s1) := take_sign s in
  let (ip, s2) := take_digits s1 in
  let (fp, s3) :=
    match s2 with
    | String "." s2' => take_digits s2'
    | _ => (EmptyString, s2)
    end in
  if String.eqb ip "" && String.eqb fp "" then None
  else
    match parse_exponent s3 with
    | None => None
    | Some e =>
        let mantissa := inject_Z (Z_of_digits 0 (ip ++ fp)) in
        let q := (mantissa * 10 ^ (e - len fp))%Q in
        Some (if neg then (- q)%Q else q)
    end.

(** [float(s)].  The literals [inf], [infinity] and [nan] denote values
    outside the model and are rejected here; they contain no digit, and
    [si_parse] hands [float] only strings that contain one. *)
Definition float_of_string (s : string) : result Q :=
  if underscores_ok "000" s then
    let body := rstrip_by is_float_space (lstrip_by is_float_space (remove_underscores s)) in
    match parse_decimal body with
    | Some q => Return q
    | None => Raise ValueError
    end
  else Raise ValueError.

(** ** Regular expressions: the fragment of [re] the two patterns use *)

Inductive regex : Type :=
| Bol                                  (* ^ *)
| Eol                                  (* $ *)
| Class (p : ascii -> bool)            (* one character of a class *)
| Star (p : ascii -> bool)             (* c*, greedy *)
| Plus (p : ascii -> bool)             (* c+, greedy *)
| Opt (r : regex)                      (* r?, greedy *)
| Seq (r1 r2 : regex)
| Group (name : string) (r : regex).   (* (?P<name>r) *)

Declare Scope regex_scope.
Delimit Scope regex_scope with regex.
Bind Scope regex_scope with regex.
Notation "r1 ';;;' r2" := (Seq r1 r2)
  (at level 60, right associativity) : regex_scope.

(** The groups that took part in a match, the latest binding first. *)
Definition groups : Type := list (string * string).

Fixpoint group (m : groups) (name : string) : option string :=
  match m with
  | [] => None
  | (k, v) :: rest => if String.eqb name k then Some v else group rest name
  end.

(** Backtracking matcher in continuation-passing style: [k] is the rest of
    the pattern, applied to the position reached, the remaining input and
    the groups so far; a failure of [k] makes the matcher try its next
    alternative. *)
Fixpoint star_match (p : ascii -> bool) (pos : nat) (s : string)
  (k : nat -> string -> option groups) : option groups :=
  match s with
  | String c s' =>
      if p c then
        match star_match p (S pos) s' k with
        | Some m => Some m
        | None => k pos s
        end
      else k pos s
  | EmptyString => k pos s
  end.

Fixpoint run (r : regex) (pos : nat) (s : string) (m : groups)
  (k : nat -> string -> groups -> option groups) : option groups :=
  match r with
  | Bol => if Nat.eqb pos 0 then k pos s m else None
  | Eol =>
      match s with
      | EmptyString => k pos s m
      | String "010" EmptyString => k pos s m
      | _ => None
      end
  | Class p =>
      match s with
      | String c s' => if p c then k (S pos) s' m else None
      | EmptyString => None
      end
  | Star p => star_match p pos s (fun pos' s' => k pos' s' m)
  | Plus p =>
      match s with
      | String c s' =>
          if p c then star_match p (S pos) s' (fun pos' s' => k pos' s' m)
          else None
      | EmptyString => None
      end
  | Opt r' =>
      match run r' pos s m k with
      | Some res => Some res
      | None => k pos s m
      end
  | Seq r1 r2 => run r1 pos s m (fun pos' s' m' => run r2 pos' s' m' k)
  | Group name r' =>
      run r' pos s m
        (fun pos' s' m' => k pos' s' ((name, substring 0 (pos' - pos) s) :: m'))
  end.

(** [pattern.match(s)] *)
Definition re_match (r : regex) (s : string) : option groups :=
  run r 0 s [] (fun _ _ m => Some m).

(** ** The two patterns of [si_parse]

    [CRE_SI_NUMBER] is the pattern [si_parse] compiles locally; it hides
    the module-level pattern of the same name, which no function uses. *)

Definition is_sign (c : ascii) : bool := mem_char c "+-".       (* [\+\-] *)
Definition is_dot (c : ascii) : bool := negb (Ascii.eqb c "010"). (* . *)
Definition is_exp_marker (c : ascii) : bool := mem_char c "eE". (* [eE] *)
Definition is_si_unit (c : ascii) : bool := mem_char c SI_PREFIX_UNITS.

Open Scope regex_scope.

Definition CRE_10E_NUMBER : regex :=
  Bol ;;; Star is_space ;;;
  Opt (Group "integer" (Opt (Class is_sign) ;;; Plus is_digit)) ;;;
  Opt (Group "fraction" (Class is_dot ;;; Plus is_digit)) ;;;
  Star is_space ;;;
  Opt (Class is_exp_marker ;;; Star is_space ;;;
       Group "expof10" (Opt (Class is_sign) ;;; Plus is_digit)) ;;;
  Eol.

Definition CRE_SI_NUMBER : regex :=
  Bol ;;; Star is_space ;;;
  Group "number"
    (Opt (Group "integer" (Opt (Class is_sign) ;;; Plus is_digit)) ;;;
     Opt (Group "fraction" (Class is_dot ;;; Plus is_digit))) ;;;
  Star is_space ;;;
  Opt (Group "si_unit" (Class is_si_unit)) ;;;
  Star is_space ;;; Eol.

Close Scope regex_scope.

(** ** [si_parse] *)

Definition is_not_None {A : Type} (o : option A) : bool :=
  match o with Some _ => true | None => false end.

(** [d['si_unit'] if d['si_unit'] else ' '] *)
Definition unit_or_space (si_unit : option string) : string :=
  match si_unit with
  | Some (String c u) => String c u
  | _ => " "
  end.

Definition si_parse (value : string) : result Q :=
  match re_match CRE_10E_NUMBER value with
  | Some m =>
      _ <- assert (is_not_None (group m "integer")
                   || is_not_None (group m "fraction")) ;;
      float_of_string value
  | None =>
      match re_match CRE_SI_NUMBER value with
      | None => Raise AttributeError
      | Some m =>
          _ <- assert (is_not_None (group m "integer")
                       || is_not_None (group m "fraction")) ;;
          let si_unit := unit_or_space (group m "si_unit") in
          let prefix_levels := (len SI_PREFIX_UNITS - 1) / 2 in
          i <- str_index SI_PREFIX_UNITS si_unit ;;
          let scale := (10 ^ (3 * (i - prefix_levels)))%Q in
          match group m "number" with
          | Some number =>
              x <- float_of_string number ;;
              Return (x * scale)%Q
          | None => Raise TypeError
          end
      end
  end.

(** ** Declarative reading of a pattern

    [matches r pos s m pos' s' m'] holds when [r] can match at position
    [pos], in front of the input [s] and with the groups [m], leaving the
    position [pos'], the input [s'] and the groups [m'].  It describes
    every way of matching; [run] explores them in the order of Python's
    backtracking and keeps the first that lets the rest of the pattern
    succeed. *)
Fixpoint matches (r : regex) (pos : nat) (s : string) (m : groups)
  (pos' : nat) (s' : string) (m' : groups) : Prop :=
  match r with
  | Bol => pos = 0%nat /\ pos' = pos /\ s' = s /\ m' = m
  | Eol =>
      (s = EmptyString \/ s = String "010" EmptyString)
      /\ pos' = pos /\ s' = s /\ m' = m
  | Class p =>
      exists c, p c = true /\ s = String c s' /\ pos' = S pos /\ m' = m
  | Star p =>
      exists w, forallb_string p w = true /\ s = w ++ s'
                /\ pos' = (pos + String.length w)%nat /\ m' = m
  | Plus p =>
      exists c w, p c = true /\ forallb_string p w = true
                  /\ s = String c (w ++ s')
                  /\ pos' = (pos + S (String.length w))%nat /\ m' = m
  | Opt r' =>
      (pos' = pos /\ s' = s /\ m' = m) \/ matches r' pos s m pos' s' m'
  | Seq r1 r2 =>
      exists pos1 s1 m1,
        matches r1 pos s m pos1 s1 m1 /\ matches r2 pos1 s1 m1 pos' s' m'
  | Group name r' =>
      exists m1, matches r' pos s m pos' s' m1
                 /\ m' = (name, substring 0 (pos' - pos) s) :: m1
  end.

(** Every match of [r] consumes a digit. *)
Fixpoint must_digit (r : regex) : Prop :=
  match r with
  | Class p | Plus p => forall c, p c = true -> is_digit c = true
  | Seq r1 r2 => must_digit r1 \/ must_digit r2
  | Group _ r' => must_digit r'
  | _ => False
  end.

(** Every group of [r] called [name] consumes a digit when it takes part
    in a match. *)
Fixpoint digit_guarded (name : string) (r : regex) : Prop :=
  match r with
  | Opt r' => digit_guarded name r'
  | Seq r1 r2 => digit_guarded name r1 /\ digit_guarded name r2
  | Group n r' => (n = name -> must_digit r') /\ digit_guarded name r'
  | _ => True
  end.

(** [r] has a group called [name]. *)
Fixpoint binds (name : string) (r : regex) : bool :=
  match r with
  | Opt r' => binds name r'
  | Seq r1 r2 => binds name r1 || binds name r2
  | Group n r' => String.eqb name n || binds name r'
  | _ => false
  end.

(** The last character of [s] that is not whitespace. *)
Fixpoint last_non_space (s : string) : option ascii :=
  match s with
  | EmptyString => None
  | String c s' =>
      match last_non_space s' with
      | Some d => Some d
      | None => if is_space c then None else Some c
      end
  end.

(** Every match of [r] consumes a text that ends in a digit. *)
Fixpoint ends_digit (r : regex) : Prop :=
  match r with
  | Plus p => forall c, p c = true -> is_digit c = true
  | Seq _ r2 => ends_digit r2
  | Group _ r' => ends_digit r'
  | _ => False
  end.

(** Every match of [r] consumes a text whose last character that is not
    whitespace, if there is one, is a digit. *)
Fixpoint blank_or_digit_end (r : regex) : Prop :=
  ends_digit r
  \/ match r with
     | Bol | Eol => True
     | Star p => forall c, p c = true -> is_space c = true
     | Opt r' => blank_or_digit_end r'
     | Seq r1 r2 => blank_or_digit_end r1 /\ blank_or_digit_end r2
     | Group _ r' => blank_or_digit_end r'
     | _ => False
     end.

(** [r] ends with [$]. *)
Fixpoint ends_eol (r : regex) : Prop :=
  match r with
  | Eol => True
  | Seq _ r2 => ends_eol r2
  | _ => False
  end.

(** The adjustment [split] makes to the exponent [int(log10(value))]:
    down to a multiple of 3 when positive, away from zero to the next
    multiple of 3 when negative. *)
Definition round_exponent (expof10 : Z) : Z :=
  if 0 <? expof10 then expof10 / 3 * 3
  else if expof10 <? 0 then (- expof10 + 3) / 3 * -3
  else expof10.

(** [s] does not start with a character of the class [p]. *)
Definition head_not (p : ascii -> bool) (s : string) : Prop :=
  match s with
  | String c _ => p c = false
  | EmptyString => True
  end.

(** * Properties *)

(** ** The prefix table and [prefix] *)

Lemma prefix_levels_eq : (len SI_PREFIX_UNITS - 1) / 2 = 8.
Proof. reflexivity. Qed.

Lemma table_entry (n : nat) :
  (n < 17)%nat ->
  exists c, getitem SI_PREFIX_UNITS (Z.of_nat n) = Return (String c "")
            /\ str_index SI_PREFIX_UNITS (String c "") = Return (Z.of_nat n).
Proof.
  intros Hn.
  do 17 (destruct n as [|n]; [eexists; split; vm_compute; reflexivity|]).
  lia.
Qed.

Lemma prefix_in_range (expof10 : Z) :
  Z.abs (expof10 / 3) <= 8 ->
  exists c, prefix expof10 = Return (String c "")
            /\ str_index SI_PREFIX_UNITS (String c "") = Return (expof10 / 3 + 8).
Proof.
  intros H. unfold prefix. rewrite prefix_levels_eq.
  destruct (8 <? Z.abs (expof10 / 3)) eqn:E; [apply Z.ltb_lt in E; lia|].
  destruct (table_entry (Z.to_nat (expof10 / 3 + 8))) as (c & Hc & Hi); [lia|].
  rewrite Z2Nat.id in Hc, Hi by lia.
  exists c; split; assumption.
Qed.

Lemma prefix_out_of_range (expof10 : Z) :
  8 < Z.abs (expof10 / 3) -> prefix expof10 = Raise ValueError.
Proof.
  intros H. unfold prefix. rewrite prefix_levels_eq.
  apply Z.ltb_lt in H. now rewrite H.
Qed.

(** C3. [prefix(exp)] raises the range error ([ValueError]) exactly when
    [abs(exp // 3) > 8], and returns a one-character string otherwise; in
    particular [prefix(27)] raises and [prefix(24)] returns ['Y']. *)
Theorem prefix_range_error (expof10 : Z) :
  (prefix expof10 = Raise ValueError <-> 8 < Z.abs (expof10 / 3))
  /\ ((exists c, prefix expof10 = Return (String c "")) <-> Z.abs (expof10 / 3) <= 8)
  /\ prefix 27 = Raise ValueError
  /\ prefix 24 = Return "Y".
Proof.
  split; [|split; [|split; reflexivity]].
  - split; [|apply prefix_out_of_range].
    intros H.
    destruct (Z_lt_le_dec 8 (Z.abs (expof10 / 3))) as [|Hle]; [assumption|].
    destruct (prefix_in_range _ Hle) as (c & Hc & _). congruence.
  - split.
    + intros [c Hc].
      destruct (Z_lt_le_dec 8 (Z.abs (expof10 / 3))) as [Hlt|]; [|assumption].
      rewrite (prefix_out_of_range _ Hlt) in Hc. discriminate.
    + intros H. destruct (prefix_in_range _ H) as (c & Hc & _). eauto.
Qed.

(** C8, as stated, fails: the table does not have 18 symbols. *)
Lemma SI_PREFIX_UNITS_not_18 : len SI_PREFIX_UNITS <> 18.
Proof. discriminate. Qed.

(** C8, amended.  The table is an ordered sequence of 17 symbols, an odd
    number, with a space in the middle slot (index 8, exponent 0); the
    symbol at index [i] is the prefix of exponent [3 * (i - 8)], which runs
    over the multiples of 3 from -24 to +24, and [si_prefix_expof10] maps
    the symbol back to that exponent. *)
Theorem SI_PREFIX_UNITS_table (i : Z) :
  0 <= i < 17 ->
  len SI_PREFIX_UNITS = 17
  /\ Z.odd (len SI_PREFIX_UNITS) = true
  /\ getitem SI_PREFIX_UNITS 8 = Return " "
  /\ -24 <= 3 * (i - 8) <= 24
  /\ exists c, getitem SI_PREFIX_UNITS i = Return (String c "")
               /\ prefix (3 * (i - 8)) = Return (String c "")
               /\ si_prefix_expof10 (String c "") = Return (3 * (i - 8)).
Proof.
  intros Hi.
  repeat (split; [reflexivity || lia|]).
  destruct (table_entry (Z.to_nat i)) as (c & Hc & Hidx); [lia|].
  rewrite Z2Nat.id in Hc, Hidx by lia.
  assert (Hdiv : 3 * (i - 8) / 3 = i - 8).
  { rewrite Z.mul_comm. apply Z.div_mul. lia. }
  exists c. split; [assumption|]. split.
  - unfold prefix. rewrite prefix_levels_eq, Hdiv.
    destruct (8 <? Z.abs (i - 8)) eqn:E; [apply Z.ltb_lt in E; lia|].
    now replace (i - 8 + 8) with i by lia.
  - unfold si_prefix_expof10. rewrite prefix_levels_eq, Hidx. reflexivity.
Qed.

Lemma SI_PREFIX_UNITS_table_witness :
  0 <= 9 < 17
  /\ exists c, getitem SI_PREFIX_UNITS 9 = Return (String c "")
               /\ prefix (3 * (9 - 8)) = Return (String c "").
Proof.
  split; [lia|].
  destruct (SI_PREFIX_UNITS_table 9) as (_ & _ & _ & _ & c & H1 & H2 & _);
    [lia|].
  exists c. split; assumption.
Defined.

(** ** [split] *)

(** C9. [split(0.0)] returns [(0.0, 0)], and it does so without calling
    [log10], which raises at zero. *)
Theorem split_zero (value : Q) :
  (value == 0)%Q ->
  split value = Return (0%Q, 0) /\ int_log10 value = Raise ValueError.
Proof.
  intros H.
  assert (Hle : Qle_bool 0 value = true) by (apply Qle_bool_iff; rewrite H; apply Qle_refl).
  assert (Hge : Qle_bool value 0 = true) by (apply Qle_bool_iff; rewrite H; apply Qle_refl).
  assert (Heq : Qeq_bool value 0 = true) by (apply Qeq_bool_iff; exact H).
  split.
  - unfold split, Qlt_bool. rewrite Hle. simpl. now rewrite Heq.
  - unfold int_log10. now rewrite Hge.
Qed.

Lemma split_zero_witness :
  (0 == 0)%Q /\ split 0 = Return (0%Q, 0).
Proof.
  split; [reflexivity|].
  exact (proj1 (split_zero 0 (Qeq_refl 0))).
Defined.

Lemma floor_log10_loop_spec (fuel : nat) :
  forall n, 1 <= n -> n < 2 ^ Z.of_nat fuel ->
            0 <= floor_log10_loop fuel n
            /\ 10 ^ floor_log10_loop fuel n <= n < 10 ^ (floor_log10_loop fuel n + 1).
Proof.
  induction fuel as [|fuel IH]; intros n H1 H2.
  - simpl in H2. lia.
  - cbn [floor_log10_loop]. destruct (n <? 10) eqn:E.
    + apply Z.ltb_lt in E. simpl. lia.
    + apply Z.ltb_ge in E.
      assert (Hq : 1 <= n / 10) by (apply Z.div_le_lower_bound; lia).
      assert (Hq2 : n / 10 < 2 ^ Z.of_nat fuel).
      { apply Z.div_lt_upper_bound; [lia|].
        rewrite Nat2Z.inj_succ, Z.pow_succ_r in H2 by lia. lia. }
      destruct (IH _ Hq Hq2) as (H0 & Hlo & Hhi).
      set (k := floor_log10_loop fuel (n / 10)) in *.
      pose proof (Z.div_mod n 10 ltac:(lia)) as Hdm.
      pose proof (Z.mod_pos_bound n 10 ltac:(lia)) as Hmod.
      split; [lia|].
      replace (1 + k) with (Z.succ k) by lia.
      replace (Z.succ k + 1) with (Z.succ (k + 1)) by lia.
      rewrite !Z.pow_succ_r by lia. lia.
Qed.

(** [floor_log10 n] is the integer part of the base-10 logarithm of [n]. *)
Lemma floor_log10_spec (n : Z) :
  1 <= n ->
  0 <= floor_log10 n /\ 10 ^ floor_log10 n <= n < 10 ^ (floor_log10 n + 1).
Proof.
  intros H. apply floor_log10_loop_spec; [assumption|].
  rewrite Nat2Z.inj_succ, Z2Nat.id by apply Z.log2_nonneg.
  apply Z.log2_spec. lia.
Qed.

Lemma floor_log10_small (n : Z) : n < 10 -> floor_log10 n = 0.
Proof.
  intros H. unfold floor_log10. cbn [floor_log10_loop].
  apply Z.ltb_lt in H. now rewrite H.
Qed.

(** C1, on the failing inputs.  For every value strictly between 0.1
    and 1, [split] returns the value itself with exponent 0: the mantissa
    is below 1.  [int] truncates the negative logarithm to 0, and neither
    branch of the exponent adjustment handles an exponent of 0. *)
Theorem split_below_one_not_normalized (value : Q) :
  (1 # 10 < value)%Q ->
  (value < 1)%Q ->
  exists m, split value = Return (m, 0)
            /\ (m == value)%Q
            /\ ~ (1 <= Qabs m)%Q.
Proof.
  intros Hlo Hhi.
  assert (Hpos : (0 < value)%Q) by (eapply Qlt_trans; [|exact Hlo]; reflexivity).
  assert (H0 : Qle_bool 0 value = true) by (apply Qle_bool_iff, Qlt_le_weak, Hpos).
  assert (H1 : Qle_bool value 0 = false).
  { apply not_true_is_false. intros H. apply Qle_bool_iff in H.
    exact (Qlt_not_le _ _ Hpos H). }
  assert (H2 : Qeq_bool value 0 = false).
  { apply not_true_is_false. intros H. apply Qeq_bool_iff in H.
    rewrite H in Hpos. discriminate. }
  assert (H3 : int_log10 value = Return 0).
  { unfold int_log10. rewrite H1.
    unfold Qlt in Hlo, Hhi, Hpos. simpl in Hlo, Hhi, Hpos.
    destruct (Z.pos (Qden value) <=? Qnum value) eqn:E; [apply Z.leb_le in E; lia|].
    rewrite floor_log10_small; [reflexivity|].
    apply Z.div_lt_upper_bound; lia. }
  assert (H4 : Qle_bool 1000 (value * 1) = false).
  { apply not_true_is_false. intros H. apply Qle_bool_iff in H.
    apply (Qlt_not_le _ _ Hhi). eapply Qle_trans; [|eapply Qle_trans; [exact H|]].
    - discriminate.
    - rewrite Qmult_1_r. apply Qle_refl. }
  exists (value * 1)%Q. split; [|split].
  - unfold split, Qlt_bool. rewrite H0. simpl negb. cbv iota. rewrite H2.
    simpl andb. cbv iota. rewrite H3. unfold bind. cbv beta iota zeta.
    change (if 0 <? 0 then 0 / 3 * 3 else if 0 <? 0 then (- 0 + 3) / 3 * -3 else 0)
      with 0.
    change (pow_10 (- 0)) with (Return 1%Q). cbv beta iota.
    rewrite H4. reflexivity.
  - apply Qmult_1_r.
  - rewrite Qmult_1_r.
    rewrite Qabs_pos by (apply Qlt_le_weak, Hpos).
    apply Qlt_not_le, Hhi.
Qed.

Lemma split_below_one_not_normalized_witness :
  (1 # 10 < 0.5)%Q /\ (0.5 < 1)%Q
  /\ exists m, split 0.5 = Return (m, 0) /\ (m == 0.5)%Q.
Proof.
  split; [reflexivity|]. split; [reflexivity|].
  destruct (split_below_one_not_normalized 0.5) as (m & H & E & _);
    [reflexivity|reflexivity|].
  exists m. split; assumption.
Defined.

Lemma adjusted_exponent_multiple_of_3 (e0 : Z) :
  (if 0 <? e0 then e0 / 3 * 3
   else if e0 <? 0 then (- e0 + 3) / 3 * -3 else e0) mod 3 = 0.
Proof.
  destruct (0 <? e0) eqn:E1; [apply Z.mod_mul; lia|].
  destruct (e0 <? 0) eqn:E2.
  - replace ((- e0 + 3) / 3 * -3) with (- ((- e0 + 3) / 3) * 3) by lia.
    apply Z.mod_mul; lia.
  - apply Z.ltb_ge in E1, E2. now replace e0 with 0 by lia.
Qed.

(** The exponent [split] returns is a multiple of 3. *)
Lemma split_exponent_multiple_of_3 (value m : Q) (e : Z) :
  split value = Return (m, e) -> e mod 3 = 0.
Proof.
  unfold split.
  destruct (negb _ && _)%bool.
  - intros H; injection H as _ <-. reflexivity.
  - destruct (int_log10 _) as [e0|]; [simpl|discriminate].
    pose proof (adjusted_exponent_multiple_of_3 e0) as H0.
    destruct (pow_10 _) as [factor|]; [simpl|discriminate].
    destruct (Qle_bool 1000 _); intros H; injection H as _ <-.
    + rewrite <- Z.add_mod_idemp_l, H0 by lia. reflexivity.
    + exact H0.
Qed.

(** ** [si_format] *)

Lemma append_empty_r (s : string) : s ++ "" = s.
Proof. induction s as [|c s IH]; simpl; congruence. Qed.

Section FormatProperties.

Variable ru : list (string * pyval) -> string -> result string.
Variable fu : pyval -> string -> result string.

Lemma default_exp_format_renders (m : Q) (u : string) :
  str_format ru fu default_exp_format_str
    [("value", PyFloat m); ("expof10", PyStr u)]
  = Return (format_fixed 2 m ++ "e" ++ u).
Proof.
  unfold str_format. cbn -[format_fixed].
  rewrite append_empty_r. reflexivity.
Qed.

(** What [si_format] does once [split] has returned [(m, e)] and the
    first template could not be rendered. *)
Lemma si_format_handler (value m : Q) (e : Z) (format_str exp_format_str : string) :
  split value = Return (m, e) ->
  (p <- prefix e ;;
   str_format ru fu format_str [("value", PyFloat m); ("prefix", PyStr (rstrip p))])
  = Raise ValueError ->
  si_format ru fu value format_str exp_format_str
  = str_format ru fu exp_format_str
      [("value", PyFloat m);
       ("expof10", PyStr ((if 0 <? e then "+" else "") ++ str_of_int e))].
Proof.
  intros Hs Hb. unfold si_format. rewrite Hs. simpl bind at 1.
  rewrite Hb. reflexivity.
Qed.

(** C5, at the failing input.  The value [2 ** -1020], about 8.9e-308,
    has the logarithm -307.05, so its exponent is -309, outside the
    prefix table; [split] then multiplies it by the [int] [10 ** 309],
    which is too large to convert to a [float], and [OverflowError]
    leaves [si_format] before its [try], whatever the templates.  Beyond
    the other end of the table the factor is a [float] and the
    exponential template is rendered: [si_format(2 ** 1000)] is
    ["10.72e+300"]. *)
Theorem si_format_overflow_below_table (format_str exp_format_str : string) :
  int_log10 (1 # 2 ^ 1020) = Return (-307)
  /\ split (1 # 2 ^ 1020) = Raise OverflowError
  /\ si_format ru fu (1 # 2 ^ 1020) format_str exp_format_str
     = Raise OverflowError
  /\ si_format ru fu (inject_Z (2 ^ 1000)) default_format_str default_exp_format_str
     = Return "10.72e+300".
Proof.
  assert (Hs : split (1 # 2 ^ 1020) = Raise OverflowError)
    by (vm_compute; reflexivity).
  split; [vm_compute; reflexivity|]. split; [exact Hs|]. split.
  - unfold si_format. rewrite Hs. reflexivity.
  - vm_compute. reflexivity.
Qed.

(** C10. Whenever rendering the first template raises [ValueError], for
    a value whose exponent has a prefix, [si_format] returns what the
    exponential template renders; the error of the first template does not
    reach the caller. *)
Theorem si_format_swallows_template_error
  (value m : Q) (e : Z) (p format_str exp_format_str : string) :
  split value = Return (m, e) ->
  prefix e = Return p ->
  str_format ru fu format_str [("value", PyFloat m); ("prefix", PyStr (rstrip p))]
  = Raise ValueError ->
  si_format ru fu value format_str exp_format_str
  = str_format ru fu exp_format_str
      [("value", PyFloat m);
       ("expof10", PyStr ((if 0 <? e then "+" else "") ++ str_of_int e))].
Proof.
  intros Hs Hp Hv. apply si_format_handler; [assumption|].
  rewrite Hp. exact Hv.
Qed.

(** C2, at the failing input.  [si_format(0.15625)] is ["0.16 "]: the
    mantissa is not rescaled, [split] returning (0.15625, 0), so two
    decimals keep two significant digits only, and parsing the string
    back gives 0.16, more than 1% away from 0.15625. *)
Theorem round_trip_error_above_one_percent :
  si_format ru fu 0.15625 default_format_str default_exp_format_str
  = Return "0.16 "
  /\ exists x, si_parse "0.16 " = Return x
               /\ (x == 0.16)%Q
               /\ (0.01 * Qabs 0.15625 < Qabs (x - 0.15625))%Q.
Proof.
  split; [vm_compute; reflexivity|].
  eexists. split; [vm_compute; reflexivity|].
  split; reflexivity.
Qed.

End FormatProperties.

Lemma si_format_swallows_template_error_witness :
  prefix 0 = Return " "
  /\ si_format (fun _ _ => Raise TypeError) (fun _ _ => Raise TypeError)
       1 "{value:.2f} {prefix" default_exp_format_str
     = Return "1.00e0".
Proof.
  split; [reflexivity|].
  rewrite (@si_format_swallows_template_error
             (fun _ _ => Raise TypeError) (fun _ _ => Raise TypeError)
             1 (1 * 10 ^ (-0)) 0 " "
             "{value:.2f} {prefix" default_exp_format_str);
    vm_compute; reflexivity.
Defined.

(** ** The matcher *)

Lemma existsb_string_app (p : ascii -> bool) (u v : string) :
  existsb_string p (u ++ v) = existsb_string p u || existsb_string p v.
Proof.
  induction u as [|c u IH]; simpl; [reflexivity|].
  rewrite IH. apply orb_assoc.
Qed.

Lemma substring_0_0 (s : string) : substring 0 0 s = "".
Proof. destruct s; reflexivity. Qed.

Lemma star_match_sound (p : ascii -> bool) (s : string) :
  forall pos k res,
    star_match p pos s k = Some res ->
    exists w s', forallb_string p w = true /\ s = w ++ s'
                 /\ k (pos + String.length w)%nat s' = Some res.
Proof.
  induction s as [|c s IH]; intros pos k res H; simpl in H.
  - exists "", "". rewrite Nat.add_0_r. auto.
  - destruct (p c) eqn:Hc.
    + destruct (star_match p (S pos) s k) as [res'|] eqn:Hs.
      * injection H as <-.
        destruct (IH _ _ _ Hs) as (w & s' & Hw & -> & Hk).
        exists (String c w), s'. simpl. rewrite Hc, Hw.
        rewrite Nat.add_succ_r. auto.
      * exists "", (String c s). rewrite Nat.add_0_r. auto.
    + exists "", (String c s). rewrite Nat.add_0_r. auto.
Qed.

(** Soundness of the matcher: a successful run went through a match of
    [r] after which the rest of the pattern succeeded. *)
Lemma run_sound (r : regex) :
  forall pos s m k res,
    run r pos s m k = Some res ->
    exists pos' s' m',
      matches r pos s m pos' s' m' /\ k pos' s' m' = Some res.
Proof.
  induction r as [| |p|p|p|r IH|r1 IH1 r2 IH2|name r IH];
    intros pos s m k res H; simpl in H |- *.
  - destruct (Nat.eqb pos 0) eqn:E; [|discriminate].
    apply Nat.eqb_eq in E. exists pos, s, m. auto.
  - destruct s as [|c [|d s]].
    + exists pos, "", m. auto 6.
    + destruct (Ascii.eqb c "010") eqn:E.
      * apply Ascii.eqb_eq in E. subst c. exists pos, (String "010" ""), m. auto 6.
      * exfalso. revert H E.
        destruct c as [[] [] [] [] [] [] [] []]; simpl; congruence.
    + exfalso. revert H.
      destruct c as [[] [] [] [] [] [] [] []]; simpl; congruence.
  - destruct s as [|c s]; [discriminate|].
    destruct (p c) eqn:Hc; [|discriminate].
    exists (S pos), s, m. split; [exists c|]; auto.
  - apply star_match_sound in H. destruct H as (w & s' & Hw & -> & Hk).
    exists (pos + String.length w)%nat, s', m. split; [exists w|]; auto.
  - destruct s as [|c s]; [discriminate|].
    destruct (p c) eqn:Hc; [|discriminate].
    apply star_match_sound in H. destruct H as (w & s' & Hw & -> & Hk).
    exists (pos + S (String.length w))%nat, s', m.
    rewrite Nat.add_succ_r. split; [exists c, w|]; auto 6.
  - destruct (run r pos s m k) as [res'|] eqn:Hr.
    + injection H as <-.
      destruct (IH _ _ _ _ _ Hr) as (pos' & s' & m' & Hm & Hk).
      exists pos', s', m'. auto.
    + exists pos, s, m. auto.
  - apply IH1 in H. destruct H as (pos1 & s1 & m1 & Hm1 & H).
    apply IH2 in H. destruct H as (pos' & s' & m' & Hm2 & Hk).
    exists pos', s', m'. split; [exists pos1, s1, m1|]; auto.
  - apply IH in H. destruct H as (pos' & s' & m' & Hm & Hk).
    eexists pos', s', _. split; [exists m'; split; [exact Hm|reflexivity]|exact Hk].
Qed.

Lemma re_match_sound (r : regex) (s : string) (m : groups) :
  re_match r s = Some m -> exists pos' s', matches r 0 s [] pos' s' m.
Proof.
  intros H. apply run_sound in H.
  destruct H as (pos' & s' & m' & Hm & Hk). injection Hk as <-. eauto.
Qed.

(** A match consumes a prefix of the input and advances the position by
    its length. *)
Lemma matches_consumed (r : regex) :
  forall pos s m pos' s' m',
    matches r pos s m pos' s' m' ->
    exists w, s = w ++ s' /\ pos' = (pos + String.length w)%nat.
Proof.
  induction r as [| |p|p|p|r IH|r1 IH1 r2 IH2|name r IH];
    intros pos s m pos' s' m' H; simpl in H.
  - destruct H as (_ & -> & -> & _). exists "". auto.
  - destruct H as (_ & -> & -> & _). exists "". auto.
  - destruct H as (c & _ & -> & -> & _). exists (String c ""). simpl.
    split; [reflexivity|lia].
  - destruct H as (w & _ & -> & -> & _). exists w. auto.
  - destruct H as (c & w & _ & _ & -> & -> & _). exists (String c w). auto.
  - destruct H as [(-> & -> & _)|H]; [exists ""; auto|eauto].
  - destruct H as (pos1 & s1 & m1 & H1 & H2).
    apply IH1 in H1. apply IH2 in H2.
    destruct H1 as (w1 & -> & ->), H2 as (w2 & -> & ->).
    exists (w1 ++ w2). split.
    + clear. induction w1 as [|c w1 IHw]; simpl; congruence.
    + clear. induction w1 as [|c w1 IHw]; simpl; lia.
  - destruct H as (m1 & H & _). eauto.
Qed.

Lemma must_digit_sound (r : regex) :
  forall pos s m pos' s' m',
    matches r pos s m pos' s' m' ->
    must_digit r ->
    existsb_string is_digit s = true.
Proof.
  induction r as [| |p|p|p|r IH|r1 IH1 r2 IH2|name r IH];
    intros pos s m pos' s' m' H Hd; simpl in H, Hd; try contradiction.
  - destruct H as (c & Hc & -> & _). simpl. now rewrite (Hd _ Hc).
  - destruct H as (c & w & Hc & _ & -> & _). simpl. now rewrite (Hd _ Hc).
  - destruct H as (pos1 & s1 & m1 & H1 & H2). destruct Hd as [Hd|Hd].
    + eauto.
    + destruct (matches_consumed _ _ _ _ _ _ _ H1) as (w & -> & _).
      rewrite existsb_string_app, (IH2 _ _ _ _ _ _ H2 Hd). apply orb_true_r.
  - destruct H as (m1 & H & _). eauto.
Qed.

(** On an input without digits, a group that needs a digit keeps the
    value it had before the match. *)
Lemma digit_free_group (name : string) (r : regex) :
  forall pos s m pos' s' m',
    matches r pos s m pos' s' m' ->
    existsb_string is_digit s = false ->
    digit_guarded name r ->
    group m' name = group m name.
Proof.
  induction r as [| |p|p|p|r IH|r1 IH1 r2 IH2|n r IH];
    intros pos s m pos' s' m' H Hs Hg; simpl in H, Hg.
  - now destruct H as (_ & _ & _ & ->).
  - now destruct H as (_ & _ & _ & ->).
  - now destruct H as (c & _ & _ & _ & ->).
  - now destruct H as (w & _ & _ & _ & ->).
  - now destruct H as (c & w & _ & _ & _ & _ & ->).
  - destruct H as [(_ & _ & ->)|H]; [reflexivity|eauto].
  - destruct H as (pos1 & s1 & m1 & H1 & H2). destruct Hg as [Hg1 Hg2].
    destruct (matches_consumed _ _ _ _ _ _ _ H1) as (w & Hw & _).
    rewrite Hw, existsb_string_app in Hs. apply orb_false_elim in Hs.
    rewrite (IH2 _ _ _ _ _ _ H2 (proj2 Hs) Hg2).
    apply (IH1 _ _ _ _ _ _ H1); [|assumption].
    rewrite Hw, existsb_string_app. now rewrite (proj1 Hs), (proj2 Hs).
  - destruct H as (m1 & H & ->). destruct Hg as [Hn Hg]. simpl.
    destruct (String.eqb name n) eqn:E.
    + apply String.eqb_eq in E. symmetry in E.
      pose proof (must_digit_sound _ _ _ _ _ _ _ H (Hn E)). congruence.
    + eauto.
Qed.
(** ** [si_parse] *)

Lemma CRE_10E_NUMBER_guarded (name : string) :
  name = "integer" \/ name = "fraction" -> digit_guarded name CRE_10E_NUMBER.
Proof.
  intros [-> | ->]; simpl;
    repeat split; try discriminate; intros _; right; auto.
Qed.

Lemma CRE_SI_NUMBER_guarded (name : string) :
  name = "integer" \/ name = "fraction" -> digit_guarded name CRE_SI_NUMBER.
Proof.
  intros [-> | ->]; simpl;
    repeat split; try discriminate; intros _; right; auto.
Qed.

Lemma digit_free_assertion (r : regex) (value : string) (m : groups) :
  (forall name, name = "integer" \/ name = "fraction" -> digit_guarded name r) ->
  existsb_string is_digit value = false ->
  re_match r value = Some m ->
  assert (is_not_None (group m "integer") || is_not_None (group m "fraction"))
  = Raise AssertionError.
Proof.
  intros Hg Hd Hm. apply re_match_sound in Hm. destruct Hm as (pos' & s' & Hm).
  rewrite (digit_free_group "integer" _ _ _ _ _ _ _ Hm Hd) by auto.
  rewrite (digit_free_group "fraction" _ _ _ _ _ _ _ Hm Hd) by auto.
  reflexivity.
Qed.

(** C4. [si_parse] raises for every string that neither pattern matches
    ([AttributeError], from [match.group] on [None]) and for every string
    without a digit that a pattern matches ([AssertionError]); no string
    without a digit is parsed.  [si_parse("abc")] and [si_parse("")]
    raise. *)
Theorem si_parse_rejects (value : string) :
  (re_match CRE_10E_NUMBER value = None ->
   re_match CRE_SI_NUMBER value = None ->
   si_parse value = Raise AttributeError)
  /\ (existsb_string is_digit value = false ->
      re_match CRE_10E_NUMBER value <> None
      \/ re_match CRE_SI_NUMBER value <> None ->
      si_parse value = Raise AssertionError)
  /\ (existsb_string is_digit value = false ->
      exists e, si_parse value = Raise e)
  /\ si_parse "abc" = Raise AttributeError
  /\ si_parse "" = Raise AssertionError.
Proof.
  assert (Hno : existsb_string is_digit value = false ->
                si_parse value = Raise AssertionError
                \/ (re_match CRE_10E_NUMBER value = None
                    /\ re_match CRE_SI_NUMBER value = None
                    /\ si_parse value = Raise AttributeError)).
  { intros Hd. unfold si_parse.
    destruct (re_match CRE_10E_NUMBER value) as [m|] eqn:E1.
    - left. rewrite (digit_free_assertion _ _ _ CRE_10E_NUMBER_guarded Hd E1). reflexivity.
    - destruct (re_match CRE_SI_NUMBER value) as [m|] eqn:E2.
      + left. rewrite (digit_free_assertion _ _ _ CRE_SI_NUMBER_guarded Hd E2). reflexivity.
      + right. auto. }
  split; [|split; [|split; [|split; reflexivity]]].
  - intros H1 H2. unfold si_parse. now rewrite H1, H2.
  - intros Hd Hm. destruct (Hno Hd) as [H|(H1 & H2 & _)]; [assumption|].
    destruct Hm as [Hm|Hm]; contradiction.
  - intros Hd. destruct (Hno Hd) as [H|(_ & _ & H)]; eauto.
Qed.

(** C7, at the failing input.  The first pattern matches ["1x5"] (its
    unescaped [.] takes the [x]), the string contains a digit and the
    assertion passes, and [float("1x5")] raises [ValueError]. *)
Theorem first_grammar_float_failure :
  exists m, re_match CRE_10E_NUMBER "1x5" = Some m
            /\ group m "integer" = Some "1"
            /\ group m "fraction" = Some "x5"
            /\ existsb_string is_digit "1x5" = true
            /\ float_of_string "1x5" = Raise ValueError
            /\ si_parse "1x5" = Raise ValueError.
Proof.
  eexists. split; [vm_compute; reflexivity|]. repeat split.
Qed.

(** *** Completeness and greediness of the matcher *)

Lemma star_match_complete (p : ascii -> bool) (w s' : string) :
  forall pos k,
    forallb_string p w = true ->
    k (pos + String.length w)%nat s' <> None ->
    star_match p pos (w ++ s') k <> None.
Proof.
  induction w as [|c w IH]; intros pos k Hw Hk; simpl in *.
  - rewrite Nat.add_0_r in Hk.
    destruct s' as [|c s']; simpl; [assumption|].
    destruct (p c); [|assumption].
    destruct (star_match p (S pos) s' k); [discriminate|assumption].
  - apply andb_prop in Hw. destruct Hw as [Hc Hw]. rewrite Hc.
    rewrite Nat.add_succ_r in Hk.
    specialize (IH (S pos) k Hw Hk).
    destruct (star_match p (S pos) (w ++ s') k); [discriminate|contradiction].
Qed.

(** Completeness of the matcher: if some match of [r] lets the rest of
    the pattern succeed, the run succeeds. *)
Lemma run_complete (r : regex) :
  forall pos s m pos' s' m' k,
    matches r pos s m pos' s' m' ->
    k pos' s' m' <> None ->
    run r pos s m k <> None.
Proof.
  induction r as [| |p|p|p|r IH|r1 IH1 r2 IH2|name r IH];
    intros pos s m pos' s' m' k H Hk; simpl in H |- *.
  - destruct H as (-> & -> & -> & ->). exact Hk.
  - destruct H as (Hs & -> & -> & ->). destruct Hs as [-> | ->]; exact Hk.
  - destruct H as (c & Hc & -> & -> & ->). now rewrite Hc.
  - destruct H as (w & Hw & -> & -> & ->).
    now apply star_match_complete.
  - destruct H as (c & w & Hc & Hw & -> & -> & ->). rewrite Hc.
    apply star_match_complete; [assumption|].
    now rewrite Nat.add_succ_r in Hk.
  - destruct H as [(-> & -> & ->)|H].
    + destruct (run r pos s m k); [discriminate|assumption].
    + specialize (IH _ _ _ _ _ _ _ H Hk).
      destruct (run r pos s m k); [discriminate|contradiction].
  - destruct H as (pos1 & s1 & m1 & H1 & H2).
    apply (IH1 _ _ _ _ _ _ _ H1). apply (IH2 _ _ _ _ _ _ _ H2). exact Hk.
  - destruct H as (m1 & H & ->).
    apply (IH _ _ _ _ _ _ _ H). exact Hk.
Qed.

Lemma star_match_None (p : ascii -> bool) (pos : nat) (s : string)
  (k : nat -> string -> option groups) :
  star_match p pos s k = None -> k pos s = None.
Proof.
  destruct s as [|c s]; simpl; [auto|].
  destruct (p c); [|auto].
  destruct (star_match p (S pos) s k); [discriminate|auto].
Qed.

(** Greediness of [c*]: the rest of the pattern failed right after every
    longer repetition, in particular after one more character. *)
Lemma star_match_greedy (p : ascii -> bool) (s : string) :
  forall pos k res,
    star_match p pos s k = Some res ->
    exists w s',
      forallb_string p w = true /\ s = w ++ s'
      /\ k (pos + String.length w)%nat s' = Some res
      /\ forall c s'', s' = String c s'' -> p c = true ->
                       k (S (pos + String.length w)) s'' = None.
Proof.
  induction s as [|c s IH]; intros pos k res H; simpl in H.
  - exists "", "". rewrite Nat.add_0_r. repeat split; auto. discriminate.
  - destruct (p c) eqn:Hc.
    + destruct (star_match p (S pos) s k) as [res'|] eqn:Hs.
      * injection H as <-.
        destruct (IH _ _ _ Hs) as (w & s' & Hw & -> & Hk & Hg).
        exists (String c w), s'. simpl. rewrite Hc, Hw.
        rewrite Nat.add_succ_r. auto.
      * exists "", (String c s). rewrite Nat.add_0_r. repeat split; auto.
        intros c' s'' E _. injection E as <- <-.
        now apply (star_match_None p).
    + exists "", (String c s). rewrite Nat.add_0_r. repeat split; auto.
      intros c' s'' E Hc'. injection E as <- <-. congruence.
Qed.

(** *** What the groups and the end of a matched text look like *)

Lemma binds_untouched (name : string) (r : regex) :
  forall pos s m pos' s' m',
    matches r pos s m pos' s' m' ->
    binds name r = false ->
    group m' name = group m name.
Proof.
  induction r as [| |p|p|p|r IH|r1 IH1 r2 IH2|n r IH];
    intros pos s m pos' s' m' H Hb; simpl in H, Hb.
  - now destruct H as (_ & _ & _ & ->).
  - now destruct H as (_ & _ & _ & ->).
  - now destruct H as (c & _ & _ & _ & ->).
  - now destruct H as (w & _ & _ & _ & ->).
  - now destruct H as (c & w & _ & _ & _ & _ & ->).
  - destruct H as [(_ & _ & ->)|H]; [reflexivity|eauto].
  - destruct H as (pos1 & s1 & m1 & H1 & H2).
    apply orb_false_elim in Hb. destruct Hb as [Hb1 Hb2].
    rewrite (IH2 _ _ _ _ _ _ H2 Hb2). eauto.
  - destruct H as (m1 & H & ->).
    apply orb_false_elim in Hb. destruct Hb as [Hn Hb].
    simpl. rewrite Hn. eauto.
Qed.

Lemma matches_ends_eol (r : regex) :
  forall pos s m pos' s' m',
    matches r pos s m pos' s' m' ->
    ends_eol r ->
    s' = "" \/ s' = String "010" "".
Proof.
  induction r as [| |p|p|p|r IH|r1 IH1 r2 IH2|n r IH];
    intros pos s m pos' s' m' H He; simpl in H, He; try contradiction.
  - destruct H as (Hs & _ & -> & _). exact Hs.
  - destruct H as (pos1 & s1 & m1 & _ & H2). eauto.
Qed.

Lemma last_non_space_app (u v : string) :
  last_non_space (u ++ v)
  = match last_non_space v with
    | Some d => Some d
    | None => last_non_space u
    end.
Proof.
  induction u as [|c u IH]; simpl.
  - now destruct (last_non_space v).
  - rewrite IH. now destruct (last_non_space v).
Qed.

Lemma last_non_space_blank (p : ascii -> bool) (w : string) :
  (forall c, p c = true -> is_space c = true) ->
  forallb_string p w = true ->
  last_non_space w = None.
Proof.
  intros Hp. induction w as [|c w IH]; simpl; [reflexivity|].
  intros H. apply andb_prop in H. destruct H as [Hc Hw].
  now rewrite (IH Hw), (Hp _ Hc).
Qed.

Lemma digit_not_space (c : ascii) : is_digit c = true -> is_space c = false.
Proof.
  unfold is_digit, is_space. intros H.
  apply andb_prop in H. destruct H as [H1 H2].
  apply Z.leb_le in H1, H2.
  rewrite !orb_false_iff, !andb_false_iff, !Z.leb_gt, !Z.eqb_neq. lia.
Qed.

Lemma last_non_space_digits (p : ascii -> bool) (c : ascii) (w : string) :
  (forall d, p d = true -> is_digit d = true) ->
  p c = true ->
  forallb_string p w = true ->
  exists d, last_non_space (String c w) = Some d /\ is_digit d = true.
Proof.
  intros Hp. revert c. induction w as [|c' w IH]; intros c Hc Hw.
  - exists c. simpl. rewrite (digit_not_space _ (Hp _ Hc)). auto.
  - simpl in Hw. apply andb_prop in Hw. destruct Hw as [Hc' Hw].
    destruct (IH _ Hc' Hw) as (d & Hd & Hdd).
    exists d. change (last_non_space (String c (String c' w)))
      with (match last_non_space (String c' w) with
            | Some d => Some d
            | None => if is_space c then None else Some c
            end).
    rewrite Hd. auto.
Qed.

Lemma ends_digit_sound (r : regex) :
  forall pos s m pos' s' m',
    matches r pos s m pos' s' m' ->
    ends_digit r ->
    exists w d, s = w ++ s' /\ last_non_space w = Some d /\ is_digit d = true.
Proof.
  induction r as [| |p|p|p|r IH|r1 IH1 r2 IH2|n r IH];
    intros pos s m pos' s' m' H He; simpl in H, He; try contradiction.
  - destruct H as (c & w & Hc & Hw & -> & _).
    destruct (last_non_space_digits p c w He Hc Hw) as (d & Hd & Hdd).
    exists (String c w), d. auto.
  - destruct H as (pos1 & s1 & m1 & H1 & H2).
    destruct (matches_consumed _ _ _ _ _ _ _ H1) as (w1 & -> & _).
    destruct (IH2 _ _ _ _ _ _ H2 He) as (w2 & d & -> & Hd & Hdd).
    exists (w1 ++ w2), d. repeat split; [|now rewrite last_non_space_app, Hd|assumption].
    clear. induction w1 as [|c w1 IHw]; simpl; congruence.
  - destruct H as (m1 & H & _). eauto.
Qed.

Lemma ends_digit_tail (r : regex) :
  forall pos s m pos' s' m',
    matches r pos s m pos' s' m' ->
    ends_digit r ->
    (forall c, last_non_space s' = Some c -> is_digit c = true) ->
    forall c, last_non_space s = Some c -> is_digit c = true.
Proof.
  intros pos s m pos' s' m' H He Hs' c Hc.
  destruct (ends_digit_sound _ _ _ _ _ _ _ H He) as (w & d & -> & Hd & Hdd).
  rewrite last_non_space_app in Hc.
  destruct (last_non_space s') as [e|]; [apply Hs'; congruence|congruence].
Qed.

Lemma blank_or_digit_end_sound (r : regex) :
  forall pos s m pos' s' m',
    matches r pos s m pos' s' m' ->
    blank_or_digit_end r ->
    (forall c, last_non_space s' = Some c -> is_digit c = true) ->
    forall c, last_non_space s = Some c -> is_digit c = true.
Proof.
  induction r as [| |p|p|p|r IH|r1 IH1 r2 IH2|n r IH];
    intros pos s m pos' s' m' H Hb Hs'; simpl in Hb;
    (destruct Hb as [Hb|Hb]; [exact (ends_digit_tail _ _ _ _ _ _ _ H Hb Hs')|]);
    simpl in H; try contradiction.
  - now destruct H as (_ & _ & -> & _).
  - now destruct H as (_ & _ & -> & _).
  - destruct H as (w & Hw & -> & _). intros c Hc.
    rewrite last_non_space_app, (last_non_space_blank p w Hb Hw) in Hc.
    destruct (last_non_space s'); [auto|discriminate].
  - destruct H as [(_ & -> & _)|H]; [assumption|eauto].
  - destruct H as (pos1 & s1 & m1 & H1 & H2). destruct Hb as [Hb1 Hb2]. eauto.
  - destruct H as (m1 & H & _). eauto.
Qed.

Lemma tail_of_digit (r : regex) : ends_digit r -> blank_or_digit_end r.
Proof. destruct r; simpl; auto. Qed.

Lemma tail_of_seq (r1 r2 : regex) :
  blank_or_digit_end r1 -> blank_or_digit_end r2 -> blank_or_digit_end (Seq r1 r2).
Proof. simpl; auto. Qed.

Lemma tail_of_opt (r : regex) : blank_or_digit_end r -> blank_or_digit_end (Opt r).
Proof. simpl; auto. Qed.

Lemma tail_of_star (p : ascii -> bool) :
  (forall c, p c = true -> is_space c = true) -> blank_or_digit_end (Star p).
Proof. simpl; auto. Qed.

Lemma CRE_10E_NUMBER_tail : blank_or_digit_end CRE_10E_NUMBER.
Proof.
  unfold CRE_10E_NUMBER.
  repeat first [ solve [apply tail_of_digit; simpl; auto]
               | apply tail_of_seq
               | apply tail_of_opt
               | solve [apply tail_of_star; auto]
               | solve [simpl; auto] ].
Qed.

(** A string the first pattern matches ends, whitespace apart, in a
    digit. *)
Lemma CRE_10E_NUMBER_last (value : string) (m : groups) (c : ascii) :
  re_match CRE_10E_NUMBER value = Some m ->
  last_non_space value = Some c ->
  is_digit c = true.
Proof.
  intros H. apply re_match_sound in H. destruct H as (pos' & s' & H).
  apply (blank_or_digit_end_sound _ _ _ _ _ _ _ H CRE_10E_NUMBER_tail).
  intros d Hd.
  destruct (matches_ends_eol _ _ _ _ _ _ _ H) as [-> | ->];
    [simpl; auto|discriminate|discriminate].
Qed.

Lemma group_head (name v : string) (m : groups) :
  group ((name, v) :: m) name = Some v.
Proof. simpl. now rewrite String.eqb_refl. Qed.

Lemma run_seq (r1 r2 : regex) pos s m k :
  run (Seq r1 r2) pos s m k
  = run r1 pos s m (fun pos' s' m' => run r2 pos' s' m' k).
Proof. reflexivity. Qed.

Lemma run_star (p : ascii -> bool) pos s m k :
  run (Star p) pos s m k = star_match p pos s (fun pos' s' => k pos' s' m).
Proof. reflexivity. Qed.

Lemma si_unit_index (c : ascii) :
  is_si_unit c = true ->
  exists i, str_index SI_PREFIX_UNITS (String c "") = Return i /\ 0 <= i < 17.
Proof.
  unfold is_si_unit. simpl mem_char. intros H.
  repeat match type of H with
         | (Ascii.eqb c ?d || _)%bool = true =>
             destruct (Ascii.eqb c d) eqn:E;
             [apply Ascii.eqb_eq in E; subst c; eexists; split;
              [vm_compute; reflexivity|lia]
             |simpl in H; clear E]
         end.
  discriminate.
Qed.

Lemma si_unit_not_digit (c : ascii) :
  is_si_unit c = true -> is_digit c = false.
Proof.
  unfold is_si_unit. simpl mem_char. intros H.
  repeat match type of H with
         | (Ascii.eqb c ?d || _)%bool = true =>
             destruct (Ascii.eqb c d) eqn:E;
             [apply Ascii.eqb_eq in E; subst c; reflexivity
             |simpl in H; clear E]
         end.
  discriminate.
Qed.

(** The group [si_unit] of a match of the second pattern is one symbol
    of the table, it is not whitespace, and it is the last character of
    the input that is not whitespace. *)
Lemma CRE_SI_NUMBER_si_unit (value : string) (m : groups) (u : string) :
  re_match CRE_SI_NUMBER value = Some m ->
  group m "si_unit" = Some u ->
  exists c, u = String c "" /\ is_si_unit c = true /\ is_space c = false
            /\ last_non_space value = Some c.
Proof.
  intros H Hu. unfold re_match, CRE_SI_NUMBER in H.
  rewrite run_seq in H. apply run_sound in H.
  destruct H as (p1 & s1 & m1 & M1 & H).
  rewrite run_seq in H. apply run_sound in H.
  destruct H as (p2 & s2 & m2 & M2 & H).
  rewrite run_seq in H. apply run_sound in H.
  destruct H as (p3 & s3 & m3 & M3 & H).
  rewrite run_seq, run_star in H. apply star_match_greedy in H.
  destruct H as (w & post & Hw & -> & H & Hg).
  rewrite run_seq in H. apply run_sound in H.
  destruct H as (p4 & s4 & m4 & M4 & H).
  apply run_sound in H. destruct H as (p5 & s5 & m5 & M5 & H).
  injection H as ->.
  assert (Hm3 : group m3 "si_unit" = None).
  { rewrite (binds_untouched "si_unit" _ _ _ _ _ _ _ M3) by reflexivity.
    rewrite (binds_untouched "si_unit" _ _ _ _ _ _ _ M2) by reflexivity.
    rewrite (binds_untouched "si_unit" _ _ _ _ _ _ _ M1) by reflexivity.
    reflexivity. }
  destruct M5 as (p6 & s6 & m6 & (w3 & Hw3 & E1 & E2 & E3) & (Hs5 & E4 & E5 & E6)).
  destruct M4 as [(E7 & E8 & E9)|(m' & (c & Hc & E7 & E8 & E9) & E10)];
    subst; [congruence|].
  rewrite group_head in Hu.
  replace (S (p3 + String.length w) - (p3 + String.length w))%nat with 1%nat
    in Hu by lia.
  simpl in Hu. rewrite substring_0_0 in Hu. injection Hu as <-.
  assert (Hblank : last_non_space (w3 ++ s6) = None).
  { rewrite last_non_space_app.
    rewrite (last_non_space_blank is_space w3) by auto.
    destruct Hs5 as [-> | ->]; reflexivity. }
  destruct (is_space c) eqn:Hsp.
  - exfalso. specialize (Hg c _ eq_refl Hsp).
    revert Hg.
    apply (run_complete _ _ _ _ (S (p3 + String.length w) + String.length w3)%nat
             s6 m3).
    + exists (S (p3 + String.length w)), (w3 ++ s6), m3.
      split; [left; auto|].
      exists (S (p3 + String.length w) + String.length w3)%nat, s6, m3.
      split; [exists w3; auto|]. simpl. auto.
    + discriminate.
  - exists c. repeat split; try assumption.
    destruct (matches_consumed _ _ _ _ _ _ _ M1) as (w1 & -> & _).
    destruct (matches_consumed _ _ _ _ _ _ _ M2) as (w2 & -> & _).
    destruct (matches_consumed _ _ _ _ _ _ _ M3) as (wn & -> & _).
    rewrite !last_non_space_app. simpl last_non_space.
    now rewrite Hblank, Hsp.
Qed.

(** A string the second pattern matches with a prefix symbol is not
    matched by the first pattern. *)
Lemma si_unit_excludes_first_pattern (value : string) (m : groups) (u : string) :
  re_match CRE_SI_NUMBER value = Some m ->
  group m "si_unit" = Some u ->
  re_match CRE_10E_NUMBER value = None.
Proof.
  intros H Hu.
  destruct (CRE_SI_NUMBER_si_unit _ _ _ H Hu) as (c & _ & Hc & _ & Hlast).
  destruct (re_match CRE_10E_NUMBER value) as [m'|] eqn:E; [|reflexivity].
  pose proof (CRE_10E_NUMBER_last _ _ _ E Hlast) as Hd.
  rewrite (si_unit_not_digit _ Hc) in Hd. discriminate.
Qed.

(** The group [number] of a match of the second pattern is empty unless
    [integer] or [fraction] took part. *)
Lemma CRE_SI_NUMBER_number (value : string) (m : groups) (number : string) :
  re_match CRE_SI_NUMBER value = Some m ->
  group m "number" = Some number ->
  number <> "" ->
  (is_not_None (group m "integer") || is_not_None (group m "fraction"))%bool = true.
Proof.
  intros H Hn Hne. apply re_match_sound in H.
  destruct H as (pos' & s' & H). unfold CRE_SI_NUMBER in H.
  destruct H as (p1 & s1 & m1 & M1 & H).
  destruct H as (p2 & s2 & m2 & M2 & H).
  destruct H as (p3 & s3 & m3 & M3 & H).
  rewrite (binds_untouched "integer" _ _ _ _ _ _ _ H) by reflexivity.
  rewrite (binds_untouched "fraction" _ _ _ _ _ _ _ H) by reflexivity.
  rewrite (binds_untouched "number" _ _ _ _ _ _ _ H) in Hn by reflexivity.
  clear H M1 M2.
  destruct M3 as (m' & (pa & sa & ma & Ma & Mb) & ->).
  rewrite group_head in Hn. injection Hn as <-.
  destruct Mb as [(-> & -> & ->)|(mb' & _ & ->)].
  - destruct Ma as [(-> & -> & ->)|(ma' & _ & ->)]; [|reflexivity].
    exfalso. apply Hne. rewrite Nat.sub_diag. apply substring_0_0.
  - simpl. apply orb_true_r.
Qed.

(** C6, at the failing input.  The second pattern matches ["1x5k"]
    with the prefix symbol [k]: the unescaped [.] of the group
    [fraction] takes the [x], as it does in the first pattern, so the
    numeric portion is ["1x5"]; [float] rejects it, and [si_parse] raises
    [ValueError] where a number scaled by [10 ** 3] was to be
    returned. *)
Theorem si_parse_prefixed_float_failure :
  re_match CRE_10E_NUMBER "1x5k" = None
  /\ re_match CRE_SI_NUMBER "1x5k"
     = Some [("si_unit", "k"); ("number", "1x5");
             ("fraction", "x5"); ("integer", "1")]
  /\ str_index SI_PREFIX_UNITS "k" = Return 9
  /\ float_of_string "1x5" = Raise ValueError
  /\ si_parse "1x5k" = Raise ValueError.
Proof. repeat split. Qed.

Lemma si_parse_rejects_witness :
  existsb_string is_digit "k" = false
  /\ re_match CRE_SI_NUMBER "k" <> None
  /\ si_parse "k" = Raise AssertionError.
Proof.
  split; [reflexivity|]. split; [discriminate|].
  apply (proj1 (proj2 (si_parse_rejects "k"))); [reflexivity|].
  right. discriminate.
Defined.

(** ** More on [split] *)

Lemma Qle_bool_false (x y : Q) : Qle_bool x y = false <-> (y < x)%Q.
Proof.
  split; intros H.
  - apply Qnot_le_lt. intros Hle. apply Qle_bool_iff in Hle. congruence.
  - apply not_true_is_false. intros Hle. apply Qle_bool_iff in Hle.
    exact (Qlt_not_le _ _ H Hle).
Qed.

(** The logarithm of a positive number is defined. *)
Lemma int_log10_returns (v : Q) :
  (0 < v)%Q -> exists e0, int_log10 v = Return e0.
Proof.
  intros H. unfold int_log10.
  rewrite (proj2 (Qle_bool_false v 0) H). eauto.
Qed.

(** [10 ** n] is a factor a float can be multiplied by up to
    [10 ** 308]. *)
Lemma pow_10_range (n : Z) :
  (n < 309 /\ exists factor, pow_10 n = Return factor)
  \/ (309 <= n /\ pow_10 n = Raise OverflowError).
Proof.
  unfold pow_10, float_of_int.
  destruct (n <? 0) eqn:E; [apply Z.ltb_lt in E; left; split; [lia|eauto]|].
  apply Z.ltb_ge in E.
  assert (H308 : 10 ^ 308 < 2 ^ 1024 - 2 ^ 970) by (vm_compute; reflexivity).
  assert (H309 : 2 ^ 1024 - 2 ^ 970 <= 10 ^ 309) by (vm_compute; discriminate).
  rewrite Z.abs_eq by (apply Z.pow_nonneg; lia).
  destruct (Z_lt_le_dec n 309) as [Hn|Hn].
  - left. split; [assumption|].
    assert (H : 10 ^ n <= 10 ^ 308) by (apply Z.pow_le_mono_r; lia).
    destruct (2 ^ 1024 - 2 ^ 970 <=? 10 ^ n) eqn:B; [apply Z.leb_le in B; lia|].
    eauto.
  - right. split; [assumption|].
    assert (H : 10 ^ 309 <= 10 ^ n) by (apply Z.pow_le_mono_r; lia).
    destruct (2 ^ 1024 - 2 ^ 970 <=? 10 ^ n) eqn:B; [reflexivity|].
    apply Z.leb_gt in B. lia.
Qed.

(** [split] on a positive value, step by step. *)
Lemma split_positive (v : Q) :
  (0 < v)%Q ->
  split v
  = (e0 <- int_log10 v ;;
     factor <- pow_10 (- round_exponent e0) ;;
     Return (if Qle_bool 1000 (v * factor)
             then ((v * factor / 1000)%Q, round_exponent e0 + 3)
             else ((v * factor)%Q, round_exponent e0))).
Proof.
  intros Hpos. unfold split, Qlt_bool.
  rewrite (proj2 (Qle_bool_iff 0 v) (Qlt_le_weak _ _ Hpos)). simpl negb. cbv iota.
  assert (Hz : Qeq_bool v 0 = false).
  { apply not_true_is_false. intros H. apply Qeq_bool_iff in H.
    rewrite H in Hpos. discriminate. }
  rewrite Hz. simpl andb. cbv iota.
  destruct (int_log10 v) as [e0|err]; [|reflexivity].
  unfold bind. cbv beta iota zeta. fold (round_exponent e0).
  destruct (pow_10 (- round_exponent e0)) as [factor|err]; [|reflexivity].
  now destruct (Qle_bool 1000 (v * factor)).
Qed.

(** [split] on a negative value: the split of the opposite, with the
    mantissa negated. *)
Lemma split_negative (v : Q) :
  (v < 0)%Q ->
  split v = ('(m, e) <- split (- v) ;; Return ((- m)%Q, e)).
Proof.
  intros Hneg.
  assert (Hpos : (0 < - v)%Q).
  { apply Qopp_lt_compat in Hneg. exact Hneg. }
  rewrite (split_positive _ Hpos).
  unfold split, Qlt_bool.
  rewrite (proj2 (Qle_bool_false 0 v) Hneg). simpl negb. cbv iota.
  simpl andb. cbv iota.
  destruct (int_log10 (- v)) as [e0|err]; [|reflexivity].
  unfold bind. cbv beta iota zeta. fold (round_exponent e0).
  destruct (pow_10 (- round_exponent e0)) as [factor|err]; [|reflexivity].
  now destruct (Qle_bool 1000 (- v * factor)).
Qed.

Lemma split_of_zero (v : Q) : (v == 0)%Q -> split v = Return (0%Q, 0).
Proof.
  intros H. unfold split, Qlt_bool.
  rewrite (proj2 (Qle_bool_iff 0 v)) by (rewrite H; apply Qle_refl).
  simpl. now rewrite (proj2 (Qeq_bool_iff v 0) H).
Qed.

Lemma round_exponent_multiple_of_3 (e0 : Z) : round_exponent e0 mod 3 = 0.
Proof. exact (adjusted_exponent_multiple_of_3 e0). Qed.

(** The two outcomes of [split] on a positive value. *)
Lemma split_positive_outcome (v : Q) :
  (0 < v)%Q ->
  (exists m e, split v = Return (m, e) /\ e mod 3 = 0 /\ -306 <= e)
  \/ split v = Raise OverflowError.
Proof.
  intros Hpos. rewrite (split_positive _ Hpos).
  destruct (int_log10_returns _ Hpos) as [e0 He0]. rewrite He0. unfold bind.
  pose proof (round_exponent_multiple_of_3 e0) as H3.
  set (e1 := round_exponent e0) in *.
  destruct (pow_10_range (- e1)) as [(Hlt & factor & ->)|(_ & ->)];
    [left|right; reflexivity].
  assert (He1 : -306 <= e1).
  { apply Z.mod_divide in H3; [|lia]. destruct H3 as [k Hk]. lia. }
  destruct (Qle_bool 1000 (v * factor)); eexists; eexists;
    (split; [reflexivity|]); split; try lia; try assumption.
  rewrite <- Z.add_mod_idemp_l, H3 by lia. reflexivity.
Qed.

Lemma Qopp_opp_eq (v : Q) : (- - v)%Q = v.
Proof. destruct v as [n d]. unfold Qopp. simpl. now rewrite Z.opp_involutive. Qed.

Lemma Qlt_0_opp (v : Q) : (v < 0)%Q -> (0 < - v)%Q.
Proof. intros H. apply Qopp_lt_compat in H. exact H. Qed.

Lemma Q_sign_cases (v : Q) : (v < 0)%Q \/ (v == 0)%Q \/ (0 < v)%Q.
Proof.
  destruct (Q_dec v 0) as [[H|H]|H]; auto.
Qed.

(** X1. [split] raises nothing but the [OverflowError] of the product
    with [10 ** n]: the logarithm is only taken of a positive number, so
    its [ValueError] does not occur.  When [split] returns, the exponent
    is a multiple of 3 and at least -306. *)
Theorem split_outcome (value : Q) :
  (exists m e, split value = Return (m, e) /\ e mod 3 = 0 /\ -306 <= e)
  \/ split value = Raise OverflowError.
Proof.
  destruct (Q_sign_cases value) as [Hneg|[Hz|Hpos]].
  - rewrite (split_negative _ Hneg).
    destruct (split_positive_outcome _ (Qlt_0_opp _ Hneg))
      as [(m & e & Hs & H3 & Hlo)|Hs]; rewrite Hs; [left|right; reflexivity].
    exists (- m)%Q, e. auto.
  - left. exists 0%Q, 0. rewrite (split_of_zero _ Hz).
    split; [reflexivity|]. split; [reflexivity|lia].
  - exact (split_positive_outcome _ Hpos).
Qed.

(** X3. [split] is odd: on the opposite value it does what it does on
    the value, with the mantissa negated; it returns the same exponent,
    or raises the same exception. *)
Theorem split_opposite (value : Q) :
  split (- value) = ('(m, e) <- split value ;; Return ((- m)%Q, e)).
Proof.
  destruct (Q_sign_cases value) as [Hneg|[Hz|Hpos]].
  - rewrite (split_negative _ Hneg).
    destruct (split (- value)) as [[m e]|err]; [|reflexivity].
    simpl. now rewrite Qopp_opp_eq.
  - rewrite (split_of_zero _ Hz).
    rewrite split_of_zero by (rewrite Hz; reflexivity). reflexivity.
  - assert (Hneg : (- value < 0)%Q).
    { apply Qopp_lt_compat in Hpos. exact Hpos. }
    now rewrite (split_negative _ Hneg), Qopp_opp_eq.
Qed.

(** ** The table lookups *)

Lemma index_char_absent (c : ascii) (s : string) :
  mem_char c s = false -> String.index 0 (String c "") s = None.
Proof.
  induction s as [|b s IH]; intros H; simpl in *; [reflexivity|].
  apply orb_false_elim in H. destruct H as [Hb Hs].
  destruct (ascii_dec c b) as [E|E].
  - subst b. rewrite Ascii.eqb_refl in Hb. discriminate.
  - now rewrite (IH Hs).
Qed.

Lemma str_index_absent (c : ascii) :
  is_si_unit c = false -> str_index SI_PREFIX_UNITS (String c "") = Raise ValueError.
Proof.
  intros H. unfold str_index. now rewrite (index_char_absent _ _ H).
Qed.

Lemma getitem_index (c : ascii) (i : Z) :
  str_index SI_PREFIX_UNITS (String c "") = Return i ->
  0 <= i < 17 /\ getitem SI_PREFIX_UNITS i = Return (String c "").
Proof.
  intros H.
  destruct (is_si_unit c) eqn:Hc;
    [|rewrite (str_index_absent _ Hc) in H; discriminate].
  unfold is_si_unit in Hc. simpl mem_char in Hc.
  repeat match type of Hc with
         | (Ascii.eqb c ?d || _)%bool = true =>
             destruct (Ascii.eqb c d) eqn:E;
             [apply Ascii.eqb_eq in E; subst c; vm_compute in H;
              injection H as <-; split; [lia|reflexivity]
             |simpl in Hc; clear E]
         end.
  discriminate Hc.
Qed.

(** X4. [si_prefix_expof10] undoes [prefix]: the symbol [prefix] returns
    for an exponent maps back to that exponent rounded down to a multiple
    of 3, and [si_prefix_scale] gives ten to that power. *)
Theorem prefix_then_expof10 (expof10 : Z) (c : string) :
  prefix expof10 = Return c ->
  si_prefix_expof10 c = Return (3 * (expof10 / 3))
  /\ si_prefix_scale c = Return (10 ^ (3 * (expof10 / 3)))%Q
  /\ 3 * (expof10 / 3) <= expof10 < 3 * (expof10 / 3) + 3.
Proof.
  intros H.
  assert (Hr : Z.abs (expof10 / 3) <= 8).
  { destruct (Z_lt_le_dec 8 (Z.abs (expof10 / 3))) as [Hlt|]; [|assumption].
    rewrite (prefix_out_of_range _ Hlt) in H. discriminate. }
  destruct (prefix_in_range _ Hr) as (c' & Hc & Hi).
  rewrite Hc in H. injection H as <-.
  assert (He : si_prefix_expof10 (String c' "") = Return (3 * (expof10 / 3))).
  { unfold si_prefix_expof10. rewrite prefix_levels_eq, Hi. unfold bind.
    f_equal. lia. }
  split; [exact He|]. split.
  - unfold si_prefix_scale. now rewrite He.
  - pose proof (Z.div_mod expof10 3 ltac:(lia)).
    pose proof (Z.mod_pos_bound expof10 3 ltac:(lia)). lia.
Qed.

Lemma prefix_then_expof10_witness :
  prefix 25 = Return "Y" /\ si_prefix_expof10 "Y" = Return 24.
Proof.
  split; [reflexivity|].
  exact (proj1 (prefix_then_expof10 25 "Y" eq_refl)).
Defined.

(** X5. For a single character, [si_prefix_expof10] returns exactly when
    the character is a symbol of the table; the exponent is then a
    multiple of 3 between -24 and 24 whose [prefix] is that character.
    For any other character both lookups raise [ValueError]. *)
Theorem si_prefix_expof10_of_character (c : ascii) :
  (is_si_unit c = true
   /\ exists e, si_prefix_expof10 (String c "") = Return e
                /\ si_prefix_scale (String c "") = Return (10 ^ e)%Q
                /\ e mod 3 = 0 /\ -24 <= e <= 24
                /\ prefix e = Return (String c ""))
  \/ (is_si_unit c = false
      /\ si_prefix_expof10 (String c "") = Raise ValueError
      /\ si_prefix_scale (String c "") = Raise ValueError).
Proof.
  destruct (is_si_unit c) eqn:Hc.
  - left. split; [reflexivity|].
    destruct (si_unit_index _ Hc) as (i & Hi & Hrange).
    destruct (getitem_index _ _ Hi) as (_ & Hg).
    exists (3 * (i - 8)).
    assert (He : si_prefix_expof10 (String c "") = Return (3 * (i - 8))).
    { unfold si_prefix_expof10. now rewrite prefix_levels_eq, Hi. }
    split; [exact He|]. split; [unfold si_prefix_scale; now rewrite He|].
    split; [rewrite Z.mul_comm; apply Z.mod_mul; lia|]. split; [lia|].
    unfold prefix. rewrite prefix_levels_eq.
    replace (3 * (i - 8) / 3) with (i - 8)
      by (rewrite Z.mul_comm, Z.div_mul; lia).
    destruct (8 <? Z.abs (i - 8)) eqn:E; [apply Z.ltb_lt in E; lia|].
    now replace (i - 8 + 8) with i by lia.
  - right. split; [reflexivity|].
    assert (He : si_prefix_expof10 (String c "") = Raise ValueError).
    { unfold si_prefix_expof10. now rewrite (str_index_absent _ Hc). }
    split; [exact He|]. unfold si_prefix_scale. now rewrite He.
Qed.

(** ** More on [si_format] *)

Section FormatDefaults.

Variable ru : list (string * pyval) -> string -> result string.
Variable fu : pyval -> string -> result string.

Lemma default_format_renders (m : Q) (u : string) :
  str_format ru fu default_format_str
    [("value", PyFloat m); ("prefix", PyStr u)]
  = Return (format_fixed 2 m ++ " " ++ u).
Proof.
  unfold str_format. cbn -[format_fixed].
  rewrite append_empty_r. reflexivity.
Qed.

Lemma si_format_in_range (value m : Q) (e : Z) :
  split value = Return (m, e) ->
  Z.abs (e / 3) <= 8 ->
  exists c, prefix e = Return (String c "")
            /\ str_index SI_PREFIX_UNITS (String c "") = Return (e / 3 + 8)
            /\ si_format ru fu value default_format_str default_exp_format_str
               = Return (format_fixed 2 m ++ " "
                         ++ (if is_space c then "" else String c "")).
Proof.
  intros Hs Hlevel.
  destruct (prefix_in_range e Hlevel) as (c & Hc & Hi).
  exists c. split; [assumption|]. split; [assumption|].
  unfold si_format. rewrite Hs. simpl bind at 1. rewrite Hc. simpl bind.
  rewrite default_format_renders. unfold try_except_ValueError.
  unfold rstrip. simpl rstrip_by. reflexivity.
Qed.

Lemma si_format_out_of_range (value m : Q) (e : Z) :
  split value = Return (m, e) ->
  8 < Z.abs (e / 3) ->
  si_format ru fu value default_format_str default_exp_format_str
  = Return (format_fixed 2 m ++ "e"
            ++ (if 0 <? e then "+" else "") ++ str_of_int e).
Proof.
  intros Hs Hout.
  rewrite (si_format_handler ru fu value m e);
    [apply default_exp_format_renders|assumption|].
  now rewrite prefix_out_of_range.
Qed.

(** X6. Whenever [split] returns a mantissa and an exponent, [si_format]
    with the default templates returns.  If the level [e // 3] of the
    exponent is within the table, the result is the mantissa with two
    decimals, a space and the prefix symbol (nothing for the unprefixed
    slot); otherwise it is the mantissa with two decimals, [e] and the
    exponent, with a [+] when it is positive. *)
Theorem si_format_default_templates (value m : Q) (e : Z) :
  split value = Return (m, e) ->
  (Z.abs (e / 3) <= 8
   /\ exists c, prefix e = Return (String c "")
                /\ si_format ru fu value default_format_str default_exp_format_str
                   = Return (format_fixed 2 m ++ " "
                             ++ (if is_space c then "" else String c "")))
  \/ (8 < Z.abs (e / 3)
      /\ si_format ru fu value default_format_str default_exp_format_str
         = Return (format_fixed 2 m ++ "e"
                   ++ (if 0 <? e then "+" else "") ++ str_of_int e)).
Proof.
  intros Hs.
  destruct (Z_le_gt_dec (Z.abs (e / 3)) 8) as [Hin|Hout].
  - left. split; [assumption|].
    destruct (si_format_in_range _ _ _ Hs Hin) as (c & Hc & _ & Hf).
    exists c. split; assumption.
  - right. split; [lia|]. apply si_format_out_of_range; [assumption|lia].
Qed.

(** X7. When the exponent has a prefix and the first template renders,
    or raises anything but [ValueError], the outcome of [si_format] is the
    outcome of the first template: [KeyError] and [IndexError] of a
    template reach the caller, and the exponential template is not
    looked at. *)
Theorem si_format_first_template_outcome
  (value m : Q) (e : Z) (p format_str exp_format_str : string) :
  split value = Return (m, e) ->
  prefix e = Return p ->
  str_format ru fu format_str [("value", PyFloat m); ("prefix", PyStr (rstrip p))]
  <> Raise ValueError ->
  si_format ru fu value format_str exp_format_str
  = str_format ru fu format_str [("value", PyFloat m); ("prefix", PyStr (rstrip p))].
Proof.
  intros Hs Hp Hv. unfold si_format. rewrite Hs. simpl bind at 1.
  rewrite Hp. simpl bind. unfold try_except_ValueError.
  destruct (str_format ru fu format_str _) as [s|[]]; try reflexivity.
  now elim Hv.
Qed.

End FormatDefaults.

Lemma si_format_default_templates_witness :
  split 1.5 = Return (1.5%Q, 0)
  /\ si_format (fun _ _ => Raise TypeError) (fun _ _ => Raise TypeError)
       1.5 default_format_str default_exp_format_str
     = Return "1.50 ".
Proof.
  split; [vm_compute; reflexivity|].
  destruct (si_format_default_templates
              (fun _ _ => Raise TypeError) (fun _ _ => Raise TypeError)
              1.5 1.5 0) as [(_ & c & Hc & Hf)|(H & _)];
    [vm_compute; reflexivity| |vm_compute in H; discriminate H].
  rewrite Hf. vm_compute in Hc. injection Hc as <-. vm_compute. reflexivity.
Defined.

Lemma si_format_first_template_outcome_witness :
  si_format (fun _ _ => Raise TypeError) (fun _ _ => Raise TypeError)
    1 "{value:.2f} {unit}" "}{"
  = Raise KeyError.
Proof.
  rewrite (si_format_first_template_outcome
             (fun _ _ => Raise TypeError) (fun _ _ => Raise TypeError)
             1 (1 * 10 ^ (-0)) 0 " " "{value:.2f} {unit}" "}{");
    vm_compute; (reflexivity || discriminate).
Defined.

(** ** More on [si_parse] *)






(** X13. When the second pattern matches with a prefix symbol and a
    nonempty numeric portion, [si_parse] hands the numeric portion to
    [float] and scales what [float] returns by [10 ** (3 * (i - 8))], [i]
    being the index of the symbol in the table; the first pattern does
    not match such a string, and if [float] rejects the numeric portion
    its [ValueError] is what [si_parse] raises. *)
Theorem si_parse_prefixed (value number u : string) (m : groups) :
  re_match CRE_SI_NUMBER value = Some m ->
  group m "si_unit" = Some u ->
  group m "number" = Some number ->
  number <> "" ->
  re_match CRE_10E_NUMBER value = None
  /\ exists i, str_index SI_PREFIX_UNITS u = Return i
               /\ 0 <= i < 17
               /\ si_parse value
                  = (x <- float_of_string number ;;
                     Return (x * 10 ^ (3 * (i - 8)))%Q).
Proof.
  intros Hm Hu Hn Hne.
  pose proof (si_unit_excludes_first_pattern _ _ _ Hm Hu) as H10.
  split; [exact H10|].
  destruct (CRE_SI_NUMBER_si_unit _ _ _ Hm Hu) as (c & -> & Hc & _ & _).
  destruct (si_unit_index _ Hc) as (i & Hi & Hrange).
  exists i. split; [assumption|]. split; [assumption|].
  unfold si_parse. rewrite H10, Hm.
  rewrite (CRE_SI_NUMBER_number _ _ _ Hm Hn Hne), Hu. simpl.
  rewrite Hi. simpl. rewrite Hn. reflexivity.
Qed.

Lemma si_parse_prefixed_witness :
  exists x, si_parse "6.95k" = Return (x * 10 ^ (3 * (9 - 8)))%Q
            /\ (x == 6.95)%Q.
Proof.
  destruct (si_parse_prefixed "6.95k" "6.95" "k"
              [("si_unit", "k"); ("number", "6.95");
               ("fraction", ".95"); ("integer", "6")])
    as (_ & i & Hi & _ & Hp);
    [vm_compute; reflexivity|reflexivity|reflexivity|discriminate|].
  vm_compute in Hi. injection Hi as <-.
  exists (inject_Z 695 * 10 ^ (0 - 2))%Q. split; [exact Hp|reflexivity].
Defined.

Lemma forallb_string_app (p : ascii -> bool) (u v : string) :
  forallb_string p (u ++ v) = forallb_string p u && forallb_string p v.
Proof.
  induction u as [|c u IH]; simpl; [reflexivity|].
  rewrite IH. apply andb_assoc.
Qed.

Lemma string_app_assoc (u v w : string) : (u ++ v) ++ w = u ++ v ++ w.
Proof. induction u as [|c u IH]; simpl; congruence. Qed.

Lemma string_length_app (u v : string) :
  String.length (u ++ v) = (String.length u + String.length v)%nat.
Proof. induction u as [|c u IH]; simpl; congruence. Qed.

(** Whether a pattern can match between two points of the input does not
    depend on the groups matched before. *)
Lemma matches_any_groups (r : regex) :
  forall pos s m pos' s' m' m0,
    matches r pos s m pos' s' m' ->
    exists m0', matches r pos s m0 pos' s' m0'.
Proof.
  induction r as [| |p|p|p|r IH|r1 IH1 r2 IH2|n r IH];
    intros pos s m pos' s' m' m0 H; simpl in H |- *.
  - destruct H as (H1 & H2 & H3 & _). eauto.
  - destruct H as (H1 & H2 & H3 & _). eauto.
  - destruct H as (c & H1 & H2 & H3 & _). eauto 7.
  - destruct H as (w & H1 & H2 & H3 & _). eauto 7.
  - destruct H as (c & w & H1 & H2 & H3 & H4 & _). eauto 9.
  - destruct H as [(H1 & H2 & _)|H]; [eauto|].
    destruct (IH _ _ _ _ _ _ m0 H) as (m0' & H'). eauto.
  - destruct H as (pos1 & s1 & m1 & H1 & H2).
    destruct (IH1 _ _ _ _ _ _ m0 H1) as (m1' & H1').
    destruct (IH2 _ _ _ _ _ _ m1' H2) as (m2' & H2'). eauto 7.
  - destruct H as (m1 & H & _).
    destruct (IH _ _ _ _ _ _ m0 H) as (m1' & H'). eauto.
Qed.

(** X9. When [si_parse] reaches its second pattern and the pattern
    matches, the match has a prefix symbol: a string the second pattern
    matches without one is matched by the first pattern too.  The default
    [' '] for a missing [si_unit] is therefore never used, and the number
    is always scaled by a symbol that was read. *)
Theorem second_pattern_has_prefix (value : string) (m : groups) :
  re_match CRE_10E_NUMBER value = None ->
  re_match CRE_SI_NUMBER value = Some m ->
  exists c, group m "si_unit" = Some (String c "")
            /\ is_si_unit c = true
            /\ is_space c = false.
Proof.
  intros H10 Hsi.
  destruct (group m "si_unit") as [u|] eqn:Hu.
  - destruct (CRE_SI_NUMBER_si_unit _ _ _ Hsi Hu) as (c & -> & Hc & Hsp & _).
    eauto.
  - exfalso. apply re_match_sound in Hsi.
    destruct Hsi as (pos' & s' & H). unfold CRE_SI_NUMBER in H.
    destruct H as (p1 & s1 & m1 & M1 & H).
    destruct H as (p2 & s2 & m2 & M2 & H).
    destruct H as (p3 & s3 & m3 & M3 & H).
    destruct H as (p4 & s4 & m4 & M4 & H).
    destruct H as (p5 & s5 & m5 & M5 & H).
    destruct H as (p6 & s6 & m6 & M6 & M7).
    destruct M3 as (mn & (pa & sa & ma & Ma & Mb) & _).
    destruct M4 as (w4 & Hw4 & -> & -> & _).
    destruct M6 as (w6 & Hw6 & E6 & -> & ->).
    destruct M7 as (Hend & -> & -> & ->).
    destruct M5 as [(-> & -> & _)|(mu & _ & ->)];
      [|rewrite group_head in Hu; discriminate].
    subst s4.
    destruct (matches_any_groups _ _ _ _ _ _ _ m2 Ma) as (ma' & Ma').
    destruct (matches_any_groups _ _ _ _ _ _ _ ma' Mb) as (mb' & Mb').
    revert H10. apply (run_complete CRE_10E_NUMBER 0 value []
                         (p3 + String.length w4 + String.length w6)%nat s6 mb');
      [|discriminate].
    unfold CRE_10E_NUMBER.
    exists p1, s1, m1. split; [exact M1|].
    exists p2, s2, m2. split; [exact M2|].
    exists pa, sa, ma'. split; [exact Ma'|].
    exists p3, (w4 ++ w6 ++ s6), mb'. split; [exact Mb'|].
    exists (p3 + String.length w4 + String.length w6)%nat, s6, mb'. split.
    + exists (w4 ++ w6). rewrite forallb_string_app, Hw4, Hw6.
      rewrite string_app_assoc, string_length_app, Nat.add_assoc. auto.
    + exists (p3 + String.length w4 + String.length w6)%nat, s6, mb'.
      split; [left; auto|]. simpl. auto.
Qed.

Lemma second_pattern_has_prefix_witness :
  re_match CRE_10E_NUMBER "2.82 E" = None
  /\ exists c, re_match CRE_SI_NUMBER "2.82 E"
               = Some [("si_unit", String c ""); ("number", "2.82");
                       ("fraction", ".82"); ("integer", "2")]
               /\ is_si_unit c = true.
Proof.
  split; [reflexivity|].
  destruct (second_pattern_has_prefix "2.82 E"
              [("si_unit", "E"); ("number", "2.82");
               ("fraction", ".82"); ("integer", "2")] eq_refl eq_refl)
    as (c & Hg & Hc & _).
  exists c. split; [|exact Hc].
  rewrite group_head in Hg. injection Hg as <-. reflexivity.
Defined.

Lemma star_match_take (p : ascii -> bool) (w rest : string) :
  forall pos k r,
    forallb_string p w = true ->
    head_not p rest ->
    k (pos + String.length w)%nat rest = Some r ->
    star_match p pos (w ++ rest) k = Some r.
Proof.
  induction w as [|c w IH]; intros pos k r Hw Hr Hk; simpl in *.
  - rewrite Nat.add_0_r in Hk. destruct rest as [|c rest]; simpl; [assumption|].
    simpl in Hr. now rewrite Hr.
  - apply andb_prop in Hw. destruct Hw as [Hc Hw]. rewrite Hc.
    rewrite Nat.add_succ_r in Hk. now rewrite (IH (S pos) k r Hw Hr Hk).
Qed.


(** ** Decimal strings *)

Lemma string_of_uint_digits (d : Decimal.uint) :
  forallb_string is_digit (NilEmpty.string_of_uint d) = true.
Proof. induction d; simpl; auto. Qed.

Lemma Z_of_digits_of_uint_acc (d : Decimal.uint) :
  forall acc : positive,
    Z_of_digits (Z.pos acc) (NilEmpty.string_of_uint d)
    = Z.pos (Pos.of_uint_acc d acc).
Proof.
  induction d; intros acc;
    cbn [NilEmpty.string_of_uint Z_of_digits Pos.of_uint_acc];
    [reflexivity|..];
    rewrite <- IHd; f_equal;
    match goal with
    | |- context [digit_value ?c] =>
        let v := eval vm_compute in (digit_value c) in
        change (digit_value c) with v
    end;
    rewrite ?Pos2Z.inj_add, ?Pos2Z.inj_mul; lia.
Qed.

Lemma Z_of_digits_of_uint (d : Decimal.uint) :
  Z_of_digits 0 (NilEmpty.string_of_uint d) = Z.of_N (Pos.of_uint d).
Proof.
  induction d;
    cbn [NilEmpty.string_of_uint Z_of_digits Pos.of_uint];
    [reflexivity|exact IHd|..];
    match goal with
    | |- context [digit_value ?c] =>
        let v := eval vm_compute in (10 * 0 + digit_value c) in
        change (10 * 0 + digit_value c) with v
    end;
    apply Z_of_digits_of_uint_acc.
Qed.

Lemma str_of_int_nonneg (n : Z) :
  0 <= n ->
  forallb_string is_digit (str_of_int n) = true
  /\ Z_of_digits 0 (str_of_int n) = n
  /\ str_of_int n <> "".
Proof.
  intros Hn. unfold str_of_int.
  pose proof (DecimalZ.of_to n) as Hof.
  destruct n as [|p|p]; [repeat split; discriminate| |lia].
  simpl Z.to_int in *. simpl NilZero.string_of_int.
  unfold NilZero.string_of_uint.
  pose proof (DecimalPos.Unsigned.to_uint_nonnil p) as Hnil.
  destruct (Pos.to_uint p) eqn:E; [contradiction|..];
    rewrite <- E in *;
    (split; [apply string_of_uint_digits|]);
    (split; [rewrite Z_of_digits_of_uint; exact Hof|]);
    rewrite E; discriminate.
Qed.

Lemma Z_of_digits_zeros (k : nat) (s : string) :
  Z_of_digits 0 (zeros k ++ s) = Z_of_digits 0 s.
Proof. induction k as [|k IH]; simpl; auto. Qed.

Lemma zeros_digits (k : nat) : forallb_string is_digit (zeros k) = true.
Proof. induction k as [|k IH]; simpl; auto. Qed.

Lemma zeros_length (k : nat) : String.length (zeros k) = k.
Proof. induction k as [|k IH]; simpl; auto. Qed.

(** A string of at least three digits splits into its last two digits
    and a nonempty rest, the way [format_fixed 2] cuts it. *)
Lemma split_last_two (t : string) :
  forallb_string is_digit t = true ->
  (3 <= String.length t)%nat ->
  exists d ip f g,
    substring 0 (String.length t - 2) t = String d ip
    /\ substring (String.length t - 2) 2 t = String f (String g "")
    /\ t = String d ip ++ String f (String g "")
    /\ is_digit d = true /\ forallb_string is_digit ip = true
    /\ is_digit f = true /\ is_digit g = true.
Proof.
  induction t as [|c t IH]; intros Hd Hlen; simpl in Hlen; [lia|].
  simpl in Hd. apply andb_prop in Hd. destruct Hd as [Hc Ht].
  destruct t as [|f [|g [|h t]]]; simpl in Hlen; try lia.
  - simpl in Ht. apply andb_prop in Ht. destruct Ht as [Hf Hg].
    apply andb_prop in Hg. destruct Hg as [Hg _].
    exists c, "", f, g. simpl. auto 10.
  - destruct IH as (d & ip & f' & g' & H1 & H2 & H3 & Hd & Hip & Hf & Hg);
      [assumption|simpl; lia|].
    exists c, (String d ip), f', g'.
    replace (String.length (String c (String f (String g (String h t)))) - 2)%nat
      with (S (String.length (String f (String g (String h t))) - 2))
      by (simpl; lia).
    cbn [substring]. rewrite H1, H2, H3 at 1.
    simpl. rewrite Hc, Hd, Hip. auto 10.
Qed.

Lemma round_half_even_nonneg (q : Q) : (0 <= q)%Q -> 0 <= round_half_even q.
Proof.
  intros H. unfold round_half_even. destruct q as [n d].
  unfold Qle in H. cbn [Qnum Qden] in H |- *.
  assert (0 <= n / Z.pos d) by (apply Z.div_pos; lia).
  destruct (2 * (n mod Z.pos d) ?= Z.pos d); [destruct (Z.even _)| |]; lia.
Qed.

(** The text [format_fixed 2] produces: an optional minus, at least one
    digit, a point and two digits; the digits are those of the absolute
    value times 100, rounded half to even. *)
Lemma format_fixed_2_shape (q : Q) :
  exists d ip f g,
    format_fixed 2 q
    = (if Qlt_bool q 0 then "-" else "")
      ++ String d ip ++ String "." (String f (String g ""))
    /\ is_digit d = true /\ forallb_string is_digit ip = true
    /\ is_digit f = true /\ is_digit g = true
    /\ Z_of_digits 0 (String d ip ++ String f (String g ""))
       = round_half_even (Qabs q * 100).
Proof.
  unfold format_fixed.
  change (10 ^ Z.of_nat 2)%Q with 100%Q.
  set (n := round_half_even (Qabs q * 100)).
  assert (Hn : 0 <= n).
  { apply round_half_even_nonneg.
    apply Qmult_le_0_compat; [apply Qabs_nonneg|discriminate]. }
  destruct (str_of_int_nonneg n Hn) as (Hd & Hv & Hne).
  set (t := zeros (3 - String.length (str_of_int n)) ++ str_of_int n).
  assert (Ht : forallb_string is_digit t = true)
    by (unfold t; now rewrite forallb_string_app, zeros_digits, Hd).
  assert (Hlen : (3 <= String.length t)%nat)
    by (unfold t; rewrite string_length_app, zeros_length; lia).
  destruct (split_last_two t Ht Hlen)
    as (d & ip & f & g & H1 & H2 & H3 & Hdd & Hip & Hf & Hg).
  exists d, ip, f, g. rewrite H1, H2.
  repeat (split; [assumption || reflexivity|]).
  rewrite <- H3. unfold t. now rewrite Z_of_digits_zeros.
Qed.

(** ** [float] on the text of a formatted number *)

Lemma mem_char_app (c : ascii) (u v : string) :
  mem_char c (u ++ v) = mem_char c u || mem_char c v.
Proof.
  induction u as [|b u IH]; simpl; [reflexivity|].
  rewrite IH. apply orb_assoc.
Qed.

Lemma digits_without (c : ascii) (w : string) :
  is_digit c = false ->
  forallb_string is_digit w = true ->
  mem_char c w = false.
Proof.
  intros Hc. induction w as [|b w IH]; simpl; [reflexivity|].
  intros H. apply andb_prop in H. destruct H as [Hb Hw].
  rewrite (IH Hw), orb_false_r.
  destruct (Ascii.eqb c b) eqn:E; [|reflexivity].
  apply Ascii.eqb_eq in E. congruence.
Qed.

Lemma underscores_ok_without (s : string) :
  forall prev,
    Ascii.eqb prev "_" = false ->
    mem_char "_" s = false ->
    underscores_ok prev s = true.
Proof.
  induction s as [|c s IH]; intros prev Hp Hs;
    cbn [mem_char underscores_ok] in *.
  - now rewrite Hp.
  - apply orb_false_elim in Hs. destruct Hs as [Hc Hs].
    rewrite Ascii.eqb_sym in Hc. rewrite Hc, Hp. simpl. now apply IH.
Qed.

Lemma remove_underscores_without (s : string) :
  mem_char "_" s = false -> remove_underscores s = s.
Proof.
  induction s as [|c s IH]; intros Hs;
    cbn [mem_char remove_underscores] in *; [reflexivity|].
  apply orb_false_elim in Hs. destruct Hs as [Hc Hs].
  rewrite Ascii.eqb_sym in Hc. now rewrite Hc, (IH Hs).
Qed.

Lemma rstrip_by_app (p : ascii -> bool) (u v : string) :
  rstrip_by p v <> "" -> rstrip_by p (u ++ v) = u ++ rstrip_by p v.
Proof.
  intros Hv. induction u as [|c u IH]; simpl; [reflexivity|].
  rewrite IH. destruct (u ++ rstrip_by p v) eqn:E; [|reflexivity].
  destruct u; simpl in E; [contradiction|discriminate].
Qed.

Lemma take_digits_app (w rest : string) :
  forallb_string is_digit w = true ->
  head_not is_digit rest ->
  take_digits (w ++ rest) = (w, rest).
Proof.
  intros Hw Hr. induction w as [|c w IH]; simpl in *.
  - destruct rest as [|c rest]; [reflexivity|]. simpl in Hr |- *. now rewrite Hr.
  - apply andb_prop in Hw. destruct Hw as [Hc Hw]. now rewrite Hc, (IH Hw).
Qed.

Lemma digit_facts (d : ascii) :
  is_digit d = true ->
  is_sign d = false /\ is_float_space d = false /\ is_space d = false
  /\ Ascii.eqb d "." = false
  /\ forall s, take_sign (String d s) = (false, String d s).
Proof.
  destruct d as [[] [] [] [] [] [] [] []]; intros H;
    try discriminate H; repeat split.
Qed.

(** [float] reads the text of a formatted number, with or without a
    trailing space, as the integer its digits spell, divided by 100. *)
Lemma float_of_formatted (neg trail : bool) (d f g : ascii) (ip : string) :
  is_digit d = true -> forallb_string is_digit ip = true ->
  is_digit f = true -> is_digit g = true ->
  float_of_string
    ((if neg then "-" else "")
     ++ String d ip
     ++ String "." (String f (String g (if trail then " " else ""))))
  = Return
      (let q := (inject_Z (Z_of_digits 0 (String d ip ++ String f (String g "")))
                 * 10 ^ (0 - 2))%Q in
       if neg then (- q)%Q else q).
Proof.
  intros Hd Hip Hf Hg.
  destruct (digit_facts d Hd) as (_ & Hdsp & _ & _ & Hdsign).
  destruct (digit_facts g Hg) as (_ & Hgsp & _ & _ & _).
  set (body := String d (ip ++ String "." (String f (String g "")))).
  set (tail := String f (String g (if trail then " " else ""))).
  assert (Hus : mem_char "_"
                  ((if neg then "-" else "") ++ String d ip ++ String "." tail)
                = false).
  { rewrite !mem_char_app.
    rewrite (digits_without "_" (String d ip)) by (simpl; auto; now rewrite Hd).
    unfold tail. cbn [mem_char].
    assert (Hf' : Ascii.eqb "_" f = false).
    { destruct (Ascii.eqb "_" f) eqn:E; [|reflexivity].
      apply Ascii.eqb_eq in E. subst f. discriminate Hf. }
    assert (Hg' : Ascii.eqb "_" g = false).
    { destruct (Ascii.eqb "_" g) eqn:E; [|reflexivity].
      apply Ascii.eqb_eq in E. subst g. discriminate Hg. }
    rewrite Hf', Hg'. now destruct neg, trail. }
  unfold float_of_string.
  rewrite underscores_ok_without by (reflexivity || assumption).
  rewrite remove_underscores_without by assumption.
  assert (Hstrip : rstrip_by is_float_space
                     (lstrip_by is_float_space
                        ((if neg then "-" else "") ++ String d ip ++ String "." tail))
                   = (if neg then "-" else "") ++ body).
  { assert (Hl : lstrip_by is_float_space
                   ((if neg then "-" else "") ++ String d ip ++ String "." tail)
                 = (if neg then "-" else "") ++ String d ip ++ String "." tail).
    { destruct neg; simpl; [reflexivity|]. now rewrite Hdsp. }
    rewrite Hl.
    assert (Ht : rstrip_by is_float_space tail = String f (String g "")).
    { unfold tail. destruct trail; simpl; now rewrite Hgsp. }
    replace ((if neg then "-" else "") ++ String d ip ++ String "." tail)
      with (((if neg then "-" else "") ++ String d ip ++ ".") ++ tail)
      by (rewrite !string_app_assoc; reflexivity).
    rewrite rstrip_by_app by (rewrite Ht; discriminate).
    rewrite Ht. unfold body. rewrite !string_app_assoc. reflexivity. }
  rewrite Hstrip.
  assert (Hparse : parse_decimal ((if neg then "-" else "") ++ body)
                   = Some (let q := (inject_Z (Z_of_digits 0
                                        (String d ip ++ String f (String g "")))
                                     * 10 ^ (0 - 2))%Q in
                           if neg then (- q)%Q else q)).
  { unfold parse_decimal.
    assert (Hsign : take_sign ((if neg then "-" else "") ++ body) = (neg, body)).
    { destruct neg; [reflexivity|]. apply Hdsign. }
    rewrite Hsign. unfold body.
    change (String d (ip ++ String "." (String f (String g ""))))
      with (String d ip ++ String "." (String f (String g ""))).
    rewrite take_digits_app; [|simpl; now rewrite Hd|reflexivity].
    simpl take_digits. rewrite Hf, Hg. simpl. reflexivity. }
  now rewrite Hparse.
Qed.

(** ** The matcher on the text of a formatted number *)

Lemma substring_prefix (w s : string) :
  substring 0 (String.length w) (w ++ s) = w.
Proof.
  induction w as [|c w IH]; simpl; [apply substring_0_0|]. now rewrite IH.
Qed.

Lemma run_opt_taken (r : regex) pos s m k res :
  run r pos s m k = Some res -> run (Opt r) pos s m k = Some res.
Proof. intros H. simpl. now rewrite H. Qed.

Lemma run_spaces (w rest : string) pos m k res :
  forallb_string is_space w = true ->
  head_not is_space rest ->
  k (pos + String.length w)%nat rest m = Some res ->
  run (Star is_space) pos (w ++ rest) m k = Some res.
Proof. intros Hw Hr Hk. rewrite run_star. now apply star_match_take. Qed.

(** The group [integer] takes an optional minus and all the digits that
    follow. *)
Lemma run_integer (neg : bool) (d : ascii) (ip rest : string) pos m k res :
  is_digit d = true -> forallb_string is_digit ip = true ->
  head_not is_digit rest ->
  k (pos + String.length ((if neg then "-" else "") ++ String d ip))%nat rest
    (("integer", (if neg then "-" else "") ++ String d ip) :: m) = Some res ->
  run (Opt (Group "integer" (Seq (Opt (Class is_sign)) (Plus is_digit))))
    pos (((if neg then "-" else "") ++ String d ip) ++ rest) m k = Some res.
Proof.
  intros Hd Hip Hr Hk. apply run_opt_taken.
  destruct (digit_facts d Hd) as (Hsign & _).
  set (I := (if neg then "-" else "") ++ String d ip) in *.
  assert (Hcap : forall n, n = String.length I ->
                           substring 0 n (I ++ rest) = I)
    by (intros n ->; apply substring_prefix).
  cbn [run]. destruct neg; unfold I in *; cbn [String.append String.length] in *.
  - change (is_sign "-") with true. cbv iota. rewrite Hd.
    erewrite star_match_take; [reflexivity|exact Hip|exact Hr|].
    rewrite Hcap by lia.
    replace (S (S pos) + String.length ip)%nat
      with (pos + S (S (String.length ip)))%nat by lia.
    exact Hk.
  - rewrite Hsign, Hd.
    erewrite star_match_take; [reflexivity|exact Hip|exact Hr|].
    rewrite Hcap by lia.
    replace (S pos + String.length ip)%nat
      with (pos + S (String.length ip))%nat by lia.
    exact Hk.
Qed.

(** The group [fraction] takes the point and all the digits that
    follow. *)
Lemma run_fraction (f : ascii) (fp rest : string) pos m k res :
  is_digit f = true -> forallb_string is_digit fp = true ->
  head_not is_digit rest ->
  k (pos + String.length (String "." (String f fp)))%nat rest
    (("fraction", String "." (String f fp)) :: m) = Some res ->
  run (Opt (Group "fraction" (Seq (Class is_dot) (Plus is_digit))))
    pos (String "." (String f fp) ++ rest) m k = Some res.
Proof.
  intros Hf Hfp Hr Hk. apply run_opt_taken.
  assert (Hcap : forall n, n = String.length (String "." (String f fp)) ->
                           substring 0 n (String "." (String f fp) ++ rest)
                           = String "." (String f fp))
    by (intros n ->; apply substring_prefix).
  cbn [run String.append String.length] in *.
  change (is_dot ".") with true. cbv iota. rewrite Hf.
  erewrite star_match_take; [reflexivity|exact Hfp|exact Hr|].
  rewrite Hcap by lia.
  replace (S (S pos) + String.length fp)%nat
    with (pos + S (S (String.length fp)))%nat by lia.
  exact Hk.
Qed.

Lemma run_bol (s : string) m k : run Bol 0 s m k = k 0%nat s m.
Proof. reflexivity. Qed.

Lemma run_group (name : string) (r : regex) pos s m k :
  run (Group name r) pos s m k
  = run r pos s m
      (fun pos' s' m' => k pos' s' ((name, substring 0 (pos' - pos) s) :: m')).
Proof. reflexivity. Qed.

(** The second pattern on a formatted number followed by a space and a
    prefix symbol. *)
Lemma CRE_SI_NUMBER_formatted (neg : bool) (d f g c : ascii) (ip : string) :
  is_digit d = true -> forallb_string is_digit ip = true ->
  is_digit f = true -> is_digit g = true ->
  is_si_unit c = true -> is_space c = false ->
  re_match CRE_SI_NUMBER
    (((if neg then "-" else "") ++ String d ip)
     ++ String "." (String f (String g "")) ++ String " " (String c ""))
  = Some [("si_unit", String c "");
          ("number", ((if neg then "-" else "") ++ String d ip)
                     ++ String "." (String f (String g "")));
          ("fraction", String "." (String f (String g "")));
          ("integer", (if neg then "-" else "") ++ String d ip)].
Proof.
  intros Hd Hip Hf Hg Hc Hsp.
  destruct (digit_facts d Hd) as (_ & _ & Hdsp & Hddot & _).
  set (I := (if neg then "-" else "") ++ String d ip).
  set (F := String "." (String f (String g ""))).
  unfold re_match, CRE_SI_NUMBER.
  rewrite run_seq, run_bol, run_seq.
  apply (run_spaces "" (I ++ F ++ String " " (String c "")));
    [reflexivity|unfold I; destruct neg; simpl; auto|].
  cbv beta. rewrite run_seq, run_group, run_seq.
  apply run_integer; [assumption|assumption|reflexivity|].
  apply run_fraction; [assumption|simpl; now rewrite Hg|reflexivity|].
  fold I F.
  replace (0 + String.length "" + String.length I + String.length F
           - (0 + String.length ""))%nat
    with (String.length (I ++ F)) by (rewrite string_length_app; simpl; lia).
  rewrite <- (string_app_assoc I F), substring_prefix.
  rewrite run_seq.
  apply (run_spaces " " (String c "")); [reflexivity|exact Hsp|].
  cbv beta. cbn [run]. rewrite Hc.
  cbn [star_match]. rewrite Nat.sub_succ_l, Nat.sub_diag by lia.
  reflexivity.
Qed.

(** The first pattern on a formatted number followed by a space. *)
Lemma CRE_10E_NUMBER_formatted (neg : bool) (d f g : ascii) (ip : string) :
  is_digit d = true -> forallb_string is_digit ip = true ->
  is_digit f = true -> is_digit g = true ->
  re_match CRE_10E_NUMBER
    (((if neg then "-" else "") ++ String d ip)
     ++ String "." (String f (String g "")) ++ " ")
  = Some [("fraction", String "." (String f (String g "")));
          ("integer", (if neg then "-" else "") ++ String d ip)].
Proof.
  intros Hd Hip Hf Hg.
  destruct (digit_facts d Hd) as (_ & _ & Hdsp & Hddot & _).
  set (I := (if neg then "-" else "") ++ String d ip).
  set (F := String "." (String f (String g ""))).
  unfold re_match, CRE_10E_NUMBER.
  rewrite run_seq, run_bol, run_seq.
  apply (run_spaces "" (I ++ F ++ " "));
    [reflexivity|unfold I; destruct neg; simpl; auto|].
  cbv beta. rewrite run_seq.
  apply run_integer; [assumption|assumption|reflexivity|].
  rewrite run_seq.
  apply run_fraction; [assumption|simpl; now rewrite Hg|reflexivity|].
  fold I F. rewrite run_seq.
  apply (run_spaces " " ""); [reflexivity|exact Logic.I|].
  cbv beta. reflexivity.
Qed.

(** ** [si_parse] after [si_format] *)

Lemma si_unit_space (c : ascii) :
  is_si_unit c = true -> is_space c = true ->
  str_index SI_PREFIX_UNITS (String c "") = Return 8.
Proof.
  unfold is_si_unit. simpl mem_char. intros H Hsp.
  repeat match type of H with
         | (Ascii.eqb c ?d || _)%bool = true =>
             destruct (Ascii.eqb c d) eqn:E;
             [apply Ascii.eqb_eq in E; subst c;
              first [discriminate Hsp | reflexivity]
             |simpl in H; clear E]
         end.
  discriminate H.
Qed.

(** What [si_parse] does with a number with two decimals, a space and a
    symbol of the table (nothing for the space): [float] reads the
    number, and the result is scaled by the symbol. *)
Lemma si_parse_formatted (q : Q) (c : ascii) (i : Z) :
  is_si_unit c = true ->
  str_index SI_PREFIX_UNITS (String c "") = Return i ->
  exists x0 x,
    float_of_string (format_fixed 2 q) = Return x0
    /\ si_parse (format_fixed 2 q ++ " " ++ (if is_space c then "" else String c ""))
       = Return x
    /\ (x == x0 * 10 ^ (3 * (i - 8)))%Q.
Proof.
  intros Hc Hi.
  destruct (format_fixed_2_shape q) as (d & ip & f & g & Hfmt & Hd & Hip & Hf & Hg & Hv).
  rewrite Hfmt. set (neg := Qlt_bool q 0) in *.
  pose proof (float_of_formatted neg) as Hfloat.
  assert (Hx0 : float_of_string
                  ((if neg then "-" else "") ++ String d ip
                   ++ String "." (String f (String g "")))
                = Return (let r := (inject_Z (Z_of_digits 0
                                      (String d ip ++ String f (String g "")))
                                    * 10 ^ (0 - 2))%Q in
                          if neg then (- r)%Q else r))
    by exact (Hfloat false d f g ip Hd Hip Hf Hg).
  eexists.
  destruct (is_space c) eqn:Hsp.
  - rewrite (si_unit_space _ Hc Hsp) in Hi. injection Hi as <-.
    replace (((if neg then "-" else "") ++ String d ip
              ++ String "." (String f (String g ""))) ++ " " ++ "")
      with (((if neg then "-" else "") ++ String d ip)
            ++ String "." (String f (String g "")) ++ " ")
      by (rewrite !string_app_assoc; reflexivity).
    eexists. split; [exact Hx0|]. split.
    + unfold si_parse.
      rewrite (CRE_10E_NUMBER_formatted neg d f g ip Hd Hip Hf Hg).
      simpl bind. rewrite string_app_assoc.
      apply (Hfloat true d f g ip Hd Hip Hf Hg).
    + change (10 ^ (3 * (8 - 8)))%Q with 1%Q. symmetry. apply Qmult_1_r.
  - replace (((if neg then "-" else "") ++ String d ip
              ++ String "." (String f (String g ""))) ++ " " ++ String c "")
      with (((if neg then "-" else "") ++ String d ip)
            ++ String "." (String f (String g "")) ++ String " " (String c ""))
      by (rewrite !string_app_assoc; reflexivity).
    pose proof (CRE_SI_NUMBER_formatted neg d f g c ip Hd Hip Hf Hg Hc Hsp) as Hm.
    eexists. split; [exact Hx0|]. split.
    + unfold si_parse.
      rewrite (si_unit_excludes_first_pattern _ _ (String c "") Hm)
        by reflexivity.
      rewrite Hm. simpl bind at 1. cbn [group String.eqb Ascii.eqb Bool.eqb].
      unfold unit_or_space. rewrite Hi. simpl bind at 1.
      replace (((if neg then "-" else "") ++ String d ip)
               ++ String "." (String f (String g "")))
        with ((if neg then "-" else "") ++ String d ip
              ++ String "." (String f (String g (if false then " " else ""))))
        by (rewrite !string_app_assoc; reflexivity).
      rewrite (Hfloat false d f g ip Hd Hip Hf Hg).
      unfold bind. cbv beta iota. reflexivity.
    + reflexivity.
Qed.

(** ** The exponential text *)

(** The signed exponent [si_format] writes for a nonzero exponent: a
    sign and the digits of its absolute value. *)
Lemma exponent_text (e : Z) :
  e <> 0 ->
  exists a ew,
    (if 0 <? e then "+" else "") ++ str_of_int e
    = String (if 0 <? e then "+" else "-") (String a ew)
    /\ is_digit a = true /\ forallb_string is_digit ew = true
    /\ Z_of_digits 0 (String a ew) = Z.abs e.
Proof.
  intros He. destruct e as [|p|p]; [contradiction| |];
    [|change (str_of_int (Z.neg p)) with (String "-" (str_of_int (Z.pos p)))];
    destruct (str_of_int_nonneg (Z.pos p)) as (Hd & Hz & Hne); try lia;
    destruct (str_of_int (Z.pos p)) as [|a ew]; try contradiction;
    simpl in Hd; apply andb_prop in Hd; destruct Hd as [Ha Hw];
    exists a, ew; repeat split; assumption.
Qed.

Lemma take_digits_all (w : string) :
  forallb_string is_digit w = true -> take_digits w = (w, "").
Proof.
  induction w as [|c w IH]; simpl; [reflexivity|].
  intros H. apply andb_prop in H. destruct H as [Hc Hw].
  now rewrite Hc, (IH Hw).
Qed.

Lemma rstrip_by_digits (a : ascii) (w : string) :
  is_digit a = true -> forallb_string is_digit w = true ->
  rstrip_by is_float_space (String a w) = String a w.
Proof.
  revert a. induction w as [|c w IH]; intros a Ha Hw.
  - destruct (digit_facts a Ha) as (_ & Hsp & _). simpl. now rewrite Hsp.
  - simpl in Hw. apply andb_prop in Hw. destruct Hw as [Hc Hw].
    change (rstrip_by is_float_space (String a (String c w)))
      with (match rstrip_by is_float_space (String c w) with
            | EmptyString => if is_float_space a then EmptyString
                             else String a EmptyString
            | t => String a t
            end).
    now rewrite (IH c Hc Hw).
Qed.

(** [float] reads the text of a formatted number followed by [e] and a
    signed exponent as the integer its digits spell, times the power of
    ten of the exponent less two. *)
Lemma float_of_formatted_exp (neg es : bool) (d f g a : ascii) (ip ew : string) :
  is_digit d = true -> forallb_string is_digit ip = true ->
  is_digit f = true -> is_digit g = true ->
  is_digit a = true -> forallb_string is_digit ew = true ->
  float_of_string
    ((if neg then "-" else "")
     ++ String d ip
     ++ String "." (String f (String g ""))
     ++ String "e" (String (if es then "-" else "+") "")
     ++ String a ew)
  = Return
      (let E := Z_of_digits 0 (String a ew) in
       let q := (inject_Z (Z_of_digits 0 (String d ip ++ String f (String g "")))
                 * 10 ^ ((if es then - E else E) - 2))%Q in
       if neg then (- q)%Q else q).
Proof.
  intros Hd Hip Hf Hg Ha Hew.
  destruct (digit_facts d Hd) as (_ & Hdsp & _ & _ & Hdsign).
  set (W := String a ew).
  set (X := String "e" (String (if es then "-" else "+") "")).
  set (F := String "." (String f (String g ""))).
  set (sgn := if neg then "-" else "").
  assert (HW : forallb_string is_digit W = true)
    by (unfold W; simpl; now rewrite Ha).
  assert (Hus : mem_char "_" (sgn ++ String d ip ++ F ++ X ++ W) = false).
  { rewrite !mem_char_app.
    rewrite (digits_without "_" (String d ip)) by (simpl; auto; now rewrite Hd).
    rewrite (digits_without "_" W) by (reflexivity || assumption).
    assert (HF : mem_char "_" F = false).
    { pose proof (digits_without "_" (String f (String g "")) eq_refl) as H.
      unfold F. cbn [mem_char] in H |- *. rewrite H; [reflexivity|].
      simpl. now rewrite Hf, Hg. }
    rewrite HF. unfold sgn, X. now destruct neg, es. }
  unfold float_of_string.
  rewrite underscores_ok_without by (reflexivity || assumption).
  rewrite remove_underscores_without by assumption.
  assert (Hstrip : rstrip_by is_float_space
                     (lstrip_by is_float_space (sgn ++ String d ip ++ F ++ X ++ W))
                   = sgn ++ String d ip ++ F ++ X ++ W).
  { assert (Hl : lstrip_by is_float_space (sgn ++ String d ip ++ F ++ X ++ W)
                 = sgn ++ String d ip ++ F ++ X ++ W).
    { unfold sgn. destruct neg; simpl; [reflexivity|]. now rewrite Hdsp. }
    rewrite Hl.
    replace (sgn ++ String d ip ++ F ++ X ++ W)
      with ((sgn ++ String d ip ++ F ++ X) ++ W)
      by (rewrite !string_app_assoc; reflexivity).
    unfold W. rewrite rstrip_by_app; rewrite rstrip_by_digits by assumption;
      [reflexivity|discriminate]. }
  rewrite Hstrip.
  assert (Hparse : parse_decimal (sgn ++ String d ip ++ F ++ X ++ W)
                   = Some (let E := Z_of_digits 0 W in
                           let q := (inject_Z (Z_of_digits 0
                                        (String d ip ++ String f (String g "")))
                                     * 10 ^ ((if es then - E else E) - 2))%Q in
                           if neg then (- q)%Q else q)).
  { unfold parse_decimal.
    assert (Hsign : take_sign (sgn ++ String d ip ++ F ++ X ++ W)
                    = (neg, String d ip ++ F ++ X ++ W)).
    { unfold sgn. destruct neg; [reflexivity|]. apply Hdsign. }
    rewrite Hsign.
    rewrite take_digits_app; [|simpl; now rewrite Hd|reflexivity].
    unfold F, X. cbn [String.append take_digits]. rewrite Hf, Hg.
    change (is_digit "e") with false. cbv iota beta.
    cbn [parse_exponent mem_char Ascii.eqb Bool.eqb orb].
    assert (Hes : take_sign (String (if es then "-" else "+") W) = (es, W))
      by now destruct es.
    rewrite Hes, (take_digits_all W HW). unfold W at 1.
    simpl. reflexivity. }
  now rewrite Hparse.
Qed.

(** The group [expof10] takes a sign and the digits up to the end. *)
Lemma run_expof10 (sc a : ascii) (ew : string) pos m k res :
  is_sign sc = true -> is_digit a = true -> forallb_string is_digit ew = true ->
  k (pos + String.length (String sc (String a ew)))%nat ""
    (("expof10", String sc (String a ew)) :: m) = Some res ->
  run (Group "expof10" (Seq (Opt (Class is_sign)) (Plus is_digit)))
    pos (String sc (String a ew)) m k = Some res.
Proof.
  intros Hsc Ha Hew Hk.
  assert (Hcap : forall n, n = String.length (String sc (String a ew)) ->
                           substring 0 n (String sc (String a ew))
                           = String sc (String a ew)).
  { intros n ->. rewrite <- (append_empty_r (String sc (String a ew))) at 2.
    apply substring_prefix. }
  cbn [run String.length] in *. rewrite Hsc, Ha.
  rewrite <- (append_empty_r ew) at 1.
  erewrite star_match_take; [reflexivity|exact Hew|exact Logic.I|].
  rewrite Hcap by lia.
  replace (S (S pos) + String.length ew)%nat
    with (pos + S (S (String.length ew)))%nat by lia.
  exact Hk.
Qed.

Lemma run_class (p : ascii -> bool) (c : ascii) pos s m k :
  p c = true -> run (Class p) pos (String c s) m k = k (S pos) s m.
Proof. intros H. simpl. now rewrite H. Qed.

(** The first pattern on a formatted number followed by [e] and a signed
    exponent. *)
Lemma CRE_10E_NUMBER_formatted_exp
  (neg es : bool) (d f g a : ascii) (ip ew : string) :
  is_digit d = true -> forallb_string is_digit ip = true ->
  is_digit f = true -> is_digit g = true ->
  is_digit a = true -> forallb_string is_digit ew = true ->
  re_match CRE_10E_NUMBER
    (((if neg then "-" else "") ++ String d ip)
     ++ String "." (String f (String g ""))
     ++ String "e" (String (if es then "-" else "+") (String a ew)))
  = Some [("expof10", String (if es then "-" else "+") (String a ew));
          ("fraction", String "." (String f (String g "")));
          ("integer", (if neg then "-" else "") ++ String d ip)].
Proof.
  intros Hd Hip Hf Hg Ha Hew.
  destruct (digit_facts d Hd) as (_ & _ & Hdsp & _).
  set (I := (if neg then "-" else "") ++ String d ip).
  set (F := String "." (String f (String g ""))).
  set (X := String (if es then "-" else "+") (String a ew)).
  unfold re_match, CRE_10E_NUMBER.
  rewrite run_seq, run_bol, run_seq.
  apply (run_spaces "" (I ++ F ++ String "e" X));
    [reflexivity|unfold I; destruct neg; simpl; auto|].
  cbv beta. rewrite run_seq.
  apply run_integer; [assumption|assumption|reflexivity|].
  rewrite run_seq.
  apply run_fraction; [assumption|simpl; now rewrite Hg|reflexivity|].
  fold I F. rewrite run_seq.
  apply (run_spaces "" (String "e" X)); [reflexivity|reflexivity|].
  cbv beta. rewrite run_seq. apply run_opt_taken.
  rewrite run_seq, run_class by reflexivity.
  rewrite run_seq.
  apply (run_spaces "" X); [reflexivity|unfold X; now destruct es|].
  cbv beta. unfold X.
  apply run_expof10; [now destruct es|assumption|assumption|].
  reflexivity.
Qed.

(** [si_parse] on a number with two decimals followed by [e] and a
    signed nonzero exponent: the first pattern matches, and the result
    is what [float] makes of the whole text. *)
Lemma si_parse_formatted_exp (q : Q) (e : Z) :
  e <> 0 ->
  exists x,
    si_parse (format_fixed 2 q ++ "e" ++ (if 0 <? e then "+" else "") ++ str_of_int e)
    = Return x
    /\ float_of_string
         (format_fixed 2 q ++ "e" ++ (if 0 <? e then "+" else "") ++ str_of_int e)
       = Return x.
Proof.
  intros He.
  destruct (format_fixed_2_shape q) as (d & ip & f & g & Hfmt & Hd & Hip & Hf & Hg & _).
  destruct (exponent_text e He) as (a & ew & Hexp & Ha & Hew & _).
  rewrite Hfmt, Hexp. set (neg := Qlt_bool q 0) in *.
  set (es := negb (0 <? e)).
  assert (Hes : (if 0 <? e then "+"%char else "-"%char)
                = (if es then "-"%char else "+"%char))
    by (unfold es; now destruct (0 <? e)).
  rewrite Hes.
  replace (((if neg then "-" else "") ++ String d ip
            ++ String "." (String f (String g "")))
           ++ "e" ++ String (if es then "-" else "+") (String a ew))
    with (((if neg then "-" else "") ++ String d ip)
          ++ String "." (String f (String g ""))
          ++ String "e" (String (if es then "-" else "+") (String a ew)))
    by (rewrite !string_app_assoc; reflexivity).
  pose proof (float_of_formatted_exp neg es d f g a ip ew Hd Hip Hf Hg Ha Hew)
    as Hfloat.
  rewrite <- string_app_assoc in Hfloat.
  eexists. split; [|exact Hfloat].
  unfold si_parse.
  rewrite (CRE_10E_NUMBER_formatted_exp neg es d f g a ip ew Hd Hip Hf Hg Ha Hew).
  unfold bind, assert. cbn [group String.eqb Ascii.eqb Bool.eqb is_not_None orb].
  exact Hfloat.
Qed.

Section RoundTrip.

Variable ru : list (string * pyval) -> string -> result string.
Variable fu : pyval -> string -> result string.

(** X10. [si_parse] accepts what [si_format] produces with the default
    templates: whenever [split] returns a mantissa and an exponent,
    [si_format] returns a string and [si_parse] returns on that string.
    If the level [e // 3] of the exponent is within the table, the number
    parsed is what [float] reads from the mantissa with two decimals,
    scaled by [10 ** (3 * (e // 3))], the scale of the prefix that was
    written. *)
Theorem si_parse_accepts_si_format (value m : Q) (e : Z) :
  split value = Return (m, e) ->
  exists s x,
    si_format ru fu value default_format_str default_exp_format_str = Return s
    /\ si_parse s = Return x
    /\ (Z.abs (e / 3) <= 8 ->
        exists x0, float_of_string (format_fixed 2 m) = Return x0
                   /\ (x == x0 * 10 ^ (3 * (e / 3)))%Q).
Proof.
  intros Hs.
  destruct (Z_le_gt_dec (Z.abs (e / 3)) 8) as [Hin|Hout].
  - destruct (si_format_in_range ru fu _ _ _ Hs Hin) as (c & _ & Hi & Hf).
    assert (Hc : is_si_unit c = true).
    { destruct (is_si_unit c) eqn:E; [reflexivity|].
      rewrite (str_index_absent _ E) in Hi. discriminate Hi. }
    destruct (si_parse_formatted m c _ Hc Hi) as (x0 & x & Hx0 & Hx & Hval).
    exists (format_fixed 2 m ++ " " ++ (if is_space c then "" else String c "")), x.
    split; [assumption|]. split; [assumption|].
    intros _. exists x0. split; [assumption|].
    now replace (3 * (e / 3 + 8 - 8)) with (3 * (e / 3)) in Hval by lia.
  - assert (He : e <> 0) by (intros ->; simpl in Hout; lia).
    destruct (si_parse_formatted_exp m e He) as (x & Hx & _).
    exists (format_fixed 2 m ++ "e" ++ (if 0 <? e then "+" else "") ++ str_of_int e), x.
    split; [apply si_format_out_of_range; [assumption|lia]|].
    split; [assumption|]. intros H. lia.
Qed.

End RoundTrip.

Lemma si_parse_accepts_si_format_witness :
  split 1.5 = Return (1.5%Q, 0)
  /\ exists s x,
       si_format (fun _ _ => Raise TypeError) (fun _ _ => Raise TypeError)
         1.5 default_format_str default_exp_format_str = Return s
       /\ si_parse s = Return x.
Proof.
  split; [vm_compute; reflexivity|].
  destruct (si_parse_accepts_si_format
              (fun _ _ => Raise TypeError) (fun _ _ => Raise TypeError)
              1.5 1.5 0) as (s & x & Hf & Hp & _);
    [vm_compute; reflexivity|].
  exists s, x. split; assumption.
Defined.
